(** * Inventory transfer engine (core/server/views/inventory.ts)

    A shallow embedding of [InventoryController]: the rule registry
    ([addRule], [verifyRules], [getInventoryRule]), the transfer
    orchestrator ([processItemMovement], [handleDropGround],
    [handlePickupGround], [handleProcessPickup]) and the single-slot
    operations ([processUse], [processSplit]).

    Conventions of the embedding.
    - A JavaScript [number] that comes from the client or from parsing a
      slot identifier is a [number]: an integer or [NaN].  Numbers stored
      in item records (slot, quantity, flags) are integers; world
      coordinates are rationals.
    - The server state the controller reads and writes is a [World]: the
      actor, the module-level [GROUND_ITEMS] array, the module-level
      [ITEM_RULES] table, and two chronological records of what the
      controller did to the outside: the invocations of registered rule
      callbacks with their results, and the calls to the presentation,
      persistence and streaming collaborators.  A call records the
      arguments the statements speak of at their value at the call: the
      synchronization of the view records the actor it is given, a save
      the container it is given.
    - A property access on [undefined] or [null] and a call of a [null]
      function raise a TypeError; the embedding makes it the [TypeError]
      completion of the monad [M].
    - [await] is sequential composition: one request runs alone.
    - The enumerations, the item and actor interfaces and the helpers of
      [playerFuncs] are not part of the controller's file.  Enumerations
      are the names the controller uses; records have the fields it
      reads; helpers are the fields of the interface [PlayerFuncs], over
      which every definition and general statement is parametric. *)

From Stdlib Require Import ZArith QArith Qabs Ascii String List Bool Lia Lqa.
From stdpp Require Import base option list countable gmap.

Local Open Scope string_scope.
Local Open Scope Z_scope.
Local Open Scope list_scope.

(** ** JavaScript values *)

Module JS.

(** [String.prototype.includes]. *)
Fixpoint includes (s sub : string) : bool :=
  String.prefix sub s ||
  match s with
  | EmptyString => false
  | String _ s' => includes s' sub
  end.

(** Truthiness of a string: only the empty string is falsy. *)
Definition truthy (s : string) : bool :=
  match s with EmptyString => false | _ => true end.

(** A client-supplied or parsed number. *)
Inductive number := NaN | Num (z : Z).

Definition isNaN (n : number) : bool :=
  match n with NaN => true | Num _ => false end.

(** [a === b] on numbers: NaN equals nothing. *)
Definition strictEq (a b : number) : bool :=
  match a, b with Num x, Num y => x =? y | _, _ => false end.

(** [Array.prototype.findIndex]: the first index whose element
    satisfies [f], or -1. *)
Fixpoint findIndex {A} (f : A -> bool) (l : list A) : Z :=
  match l with
  | [] => -1
  | x :: l' =>
      if f x then 0
      else let r := findIndex f l' in if r <? 0 then -1 else r + 1
  end.

(** [Array.prototype.find]. *)
Fixpoint find {A} (f : A -> bool) (l : list A) : option A :=
  match l with
  | [] => None
  | x :: l' => if f x then Some x else find f l'
  end.

(** [arr[i]] for an index computed by [findIndex]. *)
Definition at_ {A} (l : list A) (i : Z) : option A :=
  if i <? 0 then None else l !! Z.to_nat i.

(** [arr.splice(i, 1)] for [0 <= i]: the removed elements and what is
    left of the array. *)
Definition splice1 {A} (l : list A) (i : Z) : list A * list A :=
  match at_ l i with
  | Some x => ([x], take (Z.to_nat i) l ++ drop (S (Z.to_nat i)) l)
  | None => ([], l)
  end.

End JS.

Import JS.

(** ** Enumerations (shared/enums) *)

(** [SLOT_TYPE]: the prefixes of slot identifiers such as [i-0].  The
    enumeration (shared/enums/inventorySlotTypes) is missing; the
    controller spells three of its values out in ['i-'.includes],
    [selectedSlot.includes('t-')] and [selectedSlot.includes('e-')], and
    its header comment names the four letters. *)
Module SLOT_TYPE.
(** Modelled from the spec: prefix [i] is Personal Storage. *)
Definition INVENTORY : string := "i-".
(** Modelled from the spec: prefix [e] is the equipped slots. *)
Definition EQUIPMENT : string := "e-".
(** Modelled from the spec: prefix [t] is the Toolbar. *)
Definition TOOLBAR : string := "t-".
(** Modelled from the spec: prefix [g] is the ground. *)
Definition GROUND : string := "g-".
End SLOT_TYPE.

(** [INVENTORY_TYPE]: the container kinds; the first three are also the
    names of the container fields of [player.data]. *)
Module INVENTORY_TYPE.
Inductive t := INVENTORY | EQUIPMENT | TOOLBAR | GROUND.

Definition eqb (a b : t) : bool :=
  match a, b with
  | INVENTORY, INVENTORY | EQUIPMENT, EQUIPMENT
  | TOOLBAR, TOOLBAR | GROUND, GROUND => true
  | _, _ => false
  end.
End INVENTORY_TYPE.

(** [ITEM_TYPE]: the behaviour flags the controller tests. *)
Inductive ITEM_TYPE :=
| CAN_DROP | IS_EQUIPMENT | DESTROY_ON_DROP | CONSUMABLE | SKIP_CONSUMABLE.

(** [INVENTORY_RULES]: the twelve directed transition kinds. *)
Inductive INVENTORY_RULES :=
| FROM_EQUIPMENT_TO_INVENTORY
| FROM_EQUIPMENT_TO_TOOLBAR
| FROM_INVENTORY_TO_EQUIPMENT
| FROM_INVENTORY_TO_GROUND
| FROM_INVENTORY_TO_TOOLBAR
| FROM_TOOLBAR_TO_EQUIPMENT
| FROM_TOOLBAR_TO_INVENTORY
| FROM_EQUIPMENT_TO_GROUND
| FROM_TOOLBAR_TO_GROUND
| FROM_GROUND_TO_INVENTORY
| FROM_GROUND_TO_EQUIPMENT
| FROM_GROUND_TO_TOOLBAR.

Definition all_rules : list INVENTORY_RULES :=
  [ FROM_EQUIPMENT_TO_INVENTORY; FROM_EQUIPMENT_TO_TOOLBAR;
    FROM_INVENTORY_TO_EQUIPMENT; FROM_INVENTORY_TO_GROUND;
    FROM_INVENTORY_TO_TOOLBAR; FROM_TOOLBAR_TO_EQUIPMENT;
    FROM_TOOLBAR_TO_INVENTORY; FROM_EQUIPMENT_TO_GROUND;
    FROM_TOOLBAR_TO_GROUND; FROM_GROUND_TO_INVENTORY;
    FROM_GROUND_TO_EQUIPMENT; FROM_GROUND_TO_TOOLBAR ].

#[global] Instance INVENTORY_RULES_eq_dec : EqDecision INVENTORY_RULES.
Proof. solve_decision. Defined.

Definition rule_code (r : INVENTORY_RULES) : nat :=
  match r with
  | FROM_EQUIPMENT_TO_INVENTORY => 0 | FROM_EQUIPMENT_TO_TOOLBAR => 1
  | FROM_INVENTORY_TO_EQUIPMENT => 2 | FROM_INVENTORY_TO_GROUND => 3
  | FROM_INVENTORY_TO_TOOLBAR => 4 | FROM_TOOLBAR_TO_EQUIPMENT => 5
  | FROM_TOOLBAR_TO_INVENTORY => 6 | FROM_EQUIPMENT_TO_GROUND => 7
  | FROM_TOOLBAR_TO_GROUND => 8 | FROM_GROUND_TO_INVENTORY => 9
  | FROM_GROUND_TO_EQUIPMENT => 10 | FROM_GROUND_TO_TOOLBAR => 11
  end%nat.

#[global] Instance INVENTORY_RULES_countable : Countable INVENTORY_RULES.
Proof.
  refine (inj_countable' rule_code (fun n => default FROM_EQUIPMENT_TO_INVENTORY (all_rules !! n)) _).
  intros []; reflexivity.
Defined.

(** ** Data model (shared/interfaces/item, alt.Player) *)

Module Vector3.
Record t := mk { x : Q; y : Q; z : Q }.
End Vector3.

Module Item.
(** The fields of the opaque payload [item.data] the controller reads. *)
Record data_t := mk_data { sex : option Z; event : option string }.

Record t := mk {
  name : string;
  slot : Z;
  quantity : Z;
  behavior : Z;
  equipment : option Z;
  hash : option string;
  model : option string;
  data : data_t
}.

Definition set_quantity (i : t) (q : Z) : t :=
  mk (name i) (slot i) q (behavior i) (equipment i) (hash i) (model i) (data i).
Definition set_slot (i : t) (s : Z) : t :=
  mk (name i) s (quantity i) (behavior i) (equipment i) (hash i) (model i) (data i).
Definition set_hash (i : t) (h : string) : t :=
  mk (name i) (slot i) (quantity i) (behavior i) (equipment i) (Some h) (model i) (data i).
End Item.

Module DroppedItem.
Record t := mk {
  gridSpace : Z;
  item : Item.t;
  position : Vector3.t;
  dimension : Z
}.
End DroppedItem.

Module PlayerData.
(** [player.data]: the three owned containers (arrays whose entries
    may be null) and [appearance.sex]. *)
Record t := mk {
  inventory : list (option Item.t);
  equipment : list (option Item.t);
  toolbar : list (option Item.t);
  appearance_sex : Z
}.

Definition set_inventory (d : t) (l : list (option Item.t)) : t :=
  mk l (equipment d) (toolbar d) (appearance_sex d).
Definition set_equipment (d : t) (l : list (option Item.t)) : t :=
  mk (inventory d) l (toolbar d) (appearance_sex d).
Definition set_toolbar (d : t) (l : list (option Item.t)) : t :=
  mk (inventory d) (equipment d) l (appearance_sex d).

(** [player.data[name]]. *)
Definition field (d : t) (n : INVENTORY_TYPE.t) : option (list (option Item.t)) :=
  match n with
  | INVENTORY_TYPE.INVENTORY => Some (inventory d)
  | INVENTORY_TYPE.EQUIPMENT => Some (equipment d)
  | INVENTORY_TYPE.TOOLBAR => Some (toolbar d)
  | INVENTORY_TYPE.GROUND => None
  end.
End PlayerData.

Module Player.
Record t := mk {
  valid : bool;
  vehicle : bool;            (* [player.vehicle] is truthy *)
  pos : Vector3.t;
  gridSpace : Z;
  dimension : Z;
  data : option PlayerData.t
}.

Definition set_data (p : t) (d : PlayerData.t) : t :=
  mk (valid p) (vehicle p) (pos p) (gridSpace p) (dimension p) (Some d).
End Player.

(** ** Calls to the presentation, persistence and streaming collaborators *)

Inductive Effect :=
| sync_inventory (p : Player.t)
    (* playerFuncs.sync.inventory(player): the actor as it is at the call *)
| save_field (name : INVENTORY_TYPE.t) (value : option (list (option Item.t)))
    (* playerFuncs.save.field(player, name, player.data[name]) *)
| emit_sound2D (audio : string)
    (* playerFuncs.emit.sound2D(player, audio, <random volume>) *)
| emit_animation (dict name : string) (flags duration : Z)
| emit_message (message : string)
| removeAllWeapons
    (* player.removeAllWeapons() *)
| alt_emit (event : string) (item : Item.t) (slot : number)
    (* alt.emit(item.data.event, player, item, slot) *)
| alt_emit_DROPPED_ITEM (item : Item.t)
    (* alt.emit(ATHENA_EVENTS_PLAYER.DROPPED_ITEM, player, item) *)
| ServerItemController_append
    (item : DroppedItem.t) (uid : option string) (maxDistance : Z) (pos : Vector3.t)
| ServerObjectController_append
    (pos : Vector3.t) (uid : option string) (maxDistance : Z) (model : string)
    (dimension : Z) (noCollision : bool)
| ServerObjectController_remove (uid : string)
| ServerItemController_remove (uid : string).

(** ** The collaborators the controller calls (not part of this file)

    [playerFuncs.inventory.*] and the small utilities are taken as an
    interface.  Readers return a value; writers return their boolean
    result together with the actor they leave behind. *)

Class PlayerFuncs := {
  isInventorySlotFree : Player.t -> number -> bool;
  getInventoryItem : Player.t -> number -> option Item.t;
  inventoryRemove : Player.t -> number -> bool * Player.t;
  inventoryAdd : Player.t -> Item.t -> number -> bool * Player.t;
  isToolbarSlotFree : Player.t -> number -> bool;
  getToolbarItem : Player.t -> number -> option Item.t;
  toolbarRemove : Player.t -> number -> bool * Player.t;
  toolbarAdd : Player.t -> Item.t -> number -> bool * Player.t;
  isEquipmentSlotFree : Player.t -> number -> bool;
  getEquipmentItem : Player.t -> number -> option Item.t;
  equipmentRemove : Player.t -> number -> bool * Player.t;
  equipmentAdd : Player.t -> Item.t -> number -> bool * Player.t;
  (* { slot: number } | null *)
  getFreeInventorySlot : Player.t -> option Z;
  replaceInventoryItem : Player.t -> Item.t -> bool * Player.t;
  (* allItemRulesValid(item, endData, endSlotIndex): of endData only
     the name is passed on; the slot is null on the drop path *)
  allItemRulesValid : Item.t -> INVENTORY_TYPE.t -> option number -> bool;
  (* saves and synchronizes by itself *)
  handleSwapOrStack : Player.t -> string -> string -> Player.t * list Effect;
  getSlotType : string -> option INVENTORY_TYPE.t;
  getPositionFrontOf : Player.t -> Q -> Vector3.t;
  stripCategory : string -> number;
  isFlagEnabled : Z -> ITEM_TYPE -> bool;
  distance2d : Vector3.t -> Vector3.t -> Q;
  (* sha256Random(JSON.stringify(item)) *)
  sha256Random : Item.t -> string
}.

(** [CategoryData] (server/interface/CategoryData): one row of the
    adapter table; the Ground row has null operations. *)
Module CategoryData.
Record t := mk {
  abbrv : string;
  name : INVENTORY_TYPE.t;
  emptyCheck : option (Player.t -> number -> bool);
  getItem : option (Player.t -> number -> option Item.t);
  removeItem : option (Player.t -> number -> bool * Player.t);
  addItem : option (Player.t -> Item.t -> number -> bool * Player.t)
}.
End CategoryData.

(** ** Rule callbacks

    A registered rule is a validator
    [(item, selectedSlot, endSlot, rule) => boolean]; the item is the
    one the controller read from a slot and may be null. *)

Definition Callback : Type :=
  option Item.t -> number -> number -> INVENTORY_RULES -> bool.

(** One invocation [ITEM_RULES[rule][i](item, selectedSlot, endSlot, rule)]
    and what it returned. *)
Record RuleCall := mkRuleCall {
  call_rule : INVENTORY_RULES;
  call_index : nat;
  call_item : option Item.t;
  call_selectedSlot : number;
  call_endSlot : number;
  didPass : bool
}.

(** ** Server state and the controller *)

Section Engine.

Context {PF : PlayerFuncs}.

Record World := mkWorld {
  player : Player.t;
  GROUND_ITEMS : list DroppedItem.t;
  ITEM_RULES : gmap INVENTORY_RULES (list Callback);
  calls : list RuleCall;
  effects : list Effect
}.

(** The table the module starts with: every transition kind, no rule. *)
Definition ITEM_RULES_init : gmap INVENTORY_RULES (list Callback) :=
  list_to_map (map (fun r => (r, [])) all_rules).

(** *** The monad of controller code *)

Inductive Completion (A : Type) :=
| Normal (a : A)
| TypeError.
Arguments Normal {A} a.
Arguments TypeError {A}.

Definition M (A : Type) : Type := World -> Completion A * World.

Definition ret {A} (a : A) : M A := fun w => (Normal a, w).

Definition bind {A B} (m : M A) (k : A -> M B) : M B :=
  fun w =>
    match m w with
    | (Normal a, w') => k a w'
    | (TypeError, w') => (TypeError, w')
    end.

Definition throw {A} : M A := fun w => (TypeError, w).

Notation "x <- m ;; k" := (bind m (fun x => k))
  (at level 100, m at next level, right associativity).
Notation "m ;;; k" := (bind m (fun _ => k))
  (at level 100, right associativity).

(** Reading through a reference that may be undefined or null. *)
Definition deref {A} (o : option A) : M A :=
  match o with Some a => ret a | None => throw end.

Definition getPlayer : M Player.t := fun w => (Normal (player w), w).

Definition putPlayer (p : Player.t) : M unit :=
  fun w => (Normal tt, mkWorld p (GROUND_ITEMS w) (ITEM_RULES w) (calls w) (effects w)).

(** [player.data] followed by a property access. *)
Definition getData : M PlayerData.t :=
  p <- getPlayer ;; deref (Player.data p).

Definition getGround : M (list DroppedItem.t) :=
  fun w => (Normal (GROUND_ITEMS w), w).

Definition putGround (g : list DroppedItem.t) : M unit :=
  fun w => (Normal tt, mkWorld (player w) g (ITEM_RULES w) (calls w) (effects w)).

(** A call to a collaborator that only has an outside effect. *)
Definition emit (e : Effect) : M unit :=
  fun w => (Normal tt,
            mkWorld (player w) (GROUND_ITEMS w) (ITEM_RULES w) (calls w) (effects w ++ [e])).

Definition emits (es : list Effect) : M unit :=
  fun w => (Normal tt,
            mkWorld (player w) (GROUND_ITEMS w) (ITEM_RULES w) (calls w) (effects w ++ es)).

(** A call to a collaborator that writes the actor's containers. *)
Definition write {A} (f : Player.t -> A * Player.t) : M A :=
  p <- getPlayer ;;
  let '(a, p') := f p in
  putPlayer p' ;;; ret a.

(** [playerFuncs.sync.inventory(player)]. *)
Definition sync : M unit :=
  p <- getPlayer ;; emit (sync_inventory p).

(** [playerFuncs.save.field(player, name, player.data[name])]. *)
Definition save (name : INVENTORY_TYPE.t) : M unit :=
  d <- getData ;;
  emit (save_field name (PlayerData.field d name)).

(** [i && f(i)] on a possibly null array entry. *)
Definition present {A} (f : A -> bool) (i : option A) : bool :=
  match i with Some a => f a | None => false end.

(** *** Rule registry *)

Definition addRule (rule : INVENTORY_RULES) (callback : Callback) : M bool :=
  fun w =>
    match ITEM_RULES w !! rule with
    | None => (Normal false, w)
    | Some cbs =>
        (Normal true,
         mkWorld (player w) (GROUND_ITEMS w)
           (<[rule := cbs ++ [callback]]> (ITEM_RULES w)) (calls w) (effects w))
    end.

(** The invocation of a registered callback is recorded. *)
Definition invoke (rule : INVENTORY_RULES) (i : nat) (cb : Callback)
    (item : option Item.t) (selectedSlot endSlot : number) : M bool :=
  fun w =>
    let didPass := cb item selectedSlot endSlot rule in
    (Normal didPass,
     mkWorld (player w) (GROUND_ITEMS w) (ITEM_RULES w)
       (calls w ++ [mkRuleCall rule i item selectedSlot endSlot didPass])
       (effects w)).

(** The loop of [verifyRules]: [cbs] is what is left of
    [ITEM_RULES[rule]] from index [i] on. *)
Fixpoint verifyLoop (cbs : list Callback) (i : nat) (rule : INVENTORY_RULES)
    (item : option Item.t) (selectedSlot endSlot : number) : M bool :=
  match cbs with
  | [] => ret true
  | cb :: rest =>
      didPass <- invoke rule i cb item selectedSlot endSlot ;;
      if didPass then verifyLoop rest (S i) rule item selectedSlot endSlot
      else ret false
  end.

Definition verifyRules (rule : INVENTORY_RULES) (item : option Item.t)
    (selectedSlot endSlot : number) : M bool :=
  fun w =>
    match ITEM_RULES w !! rule with
    | None => (TypeError, w)
    | Some cbs =>
        if (length cbs <=? 0)%nat then (Normal true, w)
        else verifyLoop cbs 0 rule item selectedSlot endSlot w
    end.

(** [if (dataType) { const result = await verifyRules(dataType, ...) }]:
    no verification when no transition kind was selected. *)
Definition verifyIfSet (dataType : option INVENTORY_RULES) (item : option Item.t)
    (selectedSlot endSlot : number) : M bool :=
  match dataType with
  | Some dataType => verifyRules dataType item selectedSlot endSlot
  | None => ret true
  end.

(** [{ selected: INVENTORY_RULES; end: INVENTORY_RULES }]. *)
Record RulePair := mkRulePair {
  selected : INVENTORY_RULES;
  end_ : INVENTORY_RULES
}.

Definition getInventoryRule (selectData endData : CategoryData.t) : option RulePair :=
  let s := CategoryData.abbrv selectData in
  let e := CategoryData.abbrv endData in
  (* Inventory Rules *)
  if includes s SLOT_TYPE.INVENTORY && includes e SLOT_TYPE.TOOLBAR then
    Some (mkRulePair FROM_INVENTORY_TO_TOOLBAR FROM_TOOLBAR_TO_INVENTORY)
  else if includes s SLOT_TYPE.INVENTORY && includes e SLOT_TYPE.EQUIPMENT then
    Some (mkRulePair FROM_INVENTORY_TO_EQUIPMENT FROM_EQUIPMENT_TO_INVENTORY)
  (* Equipment Rules *)
  else if includes s SLOT_TYPE.EQUIPMENT && includes e SLOT_TYPE.INVENTORY then
    Some (mkRulePair FROM_EQUIPMENT_TO_INVENTORY FROM_INVENTORY_TO_EQUIPMENT)
  else if includes s SLOT_TYPE.EQUIPMENT && includes e SLOT_TYPE.TOOLBAR then
    Some (mkRulePair FROM_EQUIPMENT_TO_TOOLBAR FROM_TOOLBAR_TO_EQUIPMENT)
  (* Toolbar Rules *)
  else if includes s SLOT_TYPE.TOOLBAR && includes e SLOT_TYPE.INVENTORY then
    Some (mkRulePair FROM_TOOLBAR_TO_INVENTORY FROM_INVENTORY_TO_TOOLBAR)
  else if includes s SLOT_TYPE.TOOLBAR && includes e SLOT_TYPE.EQUIPMENT then
    Some (mkRulePair FROM_TOOLBAR_TO_EQUIPMENT FROM_EQUIPMENT_TO_TOOLBAR)
  else None.

(** *** Container adapter table *)

Definition DataHelpers : list CategoryData.t :=
  [ CategoryData.mk SLOT_TYPE.INVENTORY INVENTORY_TYPE.INVENTORY
      (Some isInventorySlotFree) (Some getInventoryItem)
      (Some inventoryRemove) (Some inventoryAdd);
    CategoryData.mk SLOT_TYPE.TOOLBAR INVENTORY_TYPE.TOOLBAR
      (Some isToolbarSlotFree) (Some getToolbarItem)
      (Some toolbarRemove) (Some toolbarAdd);
    CategoryData.mk SLOT_TYPE.EQUIPMENT INVENTORY_TYPE.EQUIPMENT
      (Some isEquipmentSlotFree) (Some getEquipmentItem)
      (Some equipmentRemove) (Some equipmentAdd);
    CategoryData.mk SLOT_TYPE.GROUND INVENTORY_TYPE.GROUND
      None None None None ].

(** [DataHelpers.find((dataInfo) => slot.includes(dataInfo.abbrv))]. *)
Definition findData (slot : string) : option CategoryData.t :=
  JS.find (fun dataInfo => includes slot (CategoryData.abbrv dataInfo)) DataHelpers.

(** *** Ground drop *)

(** The transition kind [handleDropGround] selects ([let dataType]
    and the if-chain that follows); undefined when no prefix matches. *)
Definition dropDataType (selectData : CategoryData.t) : option INVENTORY_RULES :=
  if includes (CategoryData.abbrv selectData) SLOT_TYPE.INVENTORY
  then Some FROM_INVENTORY_TO_GROUND
  else if includes (CategoryData.abbrv selectData) SLOT_TYPE.EQUIPMENT
  then Some FROM_EQUIPMENT_TO_GROUND
  else if includes (CategoryData.abbrv selectData) SLOT_TYPE.TOOLBAR
  then Some FROM_TOOLBAR_TO_GROUND
  else None.

Definition handleDropGround (selectedSlot : string) : M unit :=
  let selectSlotIndex := stripCategory selectedSlot in
  selectData <- deref (findData selectedSlot) ;;
  if INVENTORY_TYPE.eqb (CategoryData.name selectData) INVENTORY_TYPE.GROUND then sync
  else
    p <- getPlayer ;;
    getItem <- deref (CategoryData.getItem selectData) ;;
    let itemClone := getItem p selectSlotIndex in
    if Player.vehicle p then sync
    else
      match itemClone with
      | None => sync
      | Some itemClone =>
          if negb (isFlagEnabled (Item.behavior itemClone) CAN_DROP) then sync
          else if negb (allItemRulesValid itemClone INVENTORY_TYPE.GROUND None) then sync
          else
            let dataType := dropDataType selectData in
            result <- verifyIfSet dataType (Some itemClone) selectSlotIndex (Num (-1)) ;;
            if negb result then sync
            else
              removeItem <- deref (CategoryData.removeItem selectData) ;;
              didRemoveItem <- write (fun p => removeItem p (Num (Item.slot itemClone))) ;;
              if negb didRemoveItem then sync
              else
                save (CategoryData.name selectData) ;;;
                sync ;;;
                emit (emit_sound2D "item_drop_1") ;;;
                (* Destroys an item when it is dropped on the ground if the
                   behavior calls for it. *)
                if isFlagEnabled (Item.behavior itemClone) DESTROY_ON_DROP then
                  emit (emit_animation "random@mugging4" "pickup_low" 33 1200) ;;;
                  emit (emit_message (Item.name itemClone ++ " was destroyed on drop.")%string)
                else
                  let itemClone := Item.set_hash itemClone (sha256Random itemClone) in
                  p <- getPlayer ;;
                  let frontPosition := getPositionFrontOf p (1 # 2) in
                  let groundPos :=
                    Vector3.mk (Vector3.x frontPosition) (Vector3.y frontPosition)
                      (Vector3.z (Player.pos p) - 1)%Q in
                  let itemInfoPos :=
                    Vector3.mk (Vector3.x frontPosition) (Vector3.y frontPosition)
                      (Vector3.z (Player.pos p) - (3 # 10))%Q in
                  let droppedItem :=
                    DroppedItem.mk (Player.gridSpace p) itemClone itemInfoPos
                      (Player.dimension p) in
                  ground <- getGround ;;
                  putGround (ground ++ [droppedItem]) ;;;
                  emit (ServerItemController_append droppedItem (Item.hash itemClone)
                          10 itemInfoPos) ;;;
                  let objectModel :=
                    match Item.model itemClone with
                    | Some m => if truthy m then m else "prop_cs_box_clothes"
                    | None => "prop_cs_box_clothes"
                    end in
                  emit (ServerObjectController_append groundPos (Item.hash itemClone)
                          10 objectModel (Player.dimension p) true) ;;;
                  emit (emit_animation "random@mugging4" "pickup_low" 33 1200) ;;;
                  emit (alt_emit_DROPPED_ITEM itemClone)
      end.

(** *** Ground pickup *)

(** The transition kind [handlePickupGround] selects ([let dataType]
    and the if-chain that follows); undefined when no prefix matches. *)
Definition pickupDataType (endData : CategoryData.t) : option INVENTORY_RULES :=
  if includes (CategoryData.abbrv endData) SLOT_TYPE.INVENTORY
  then Some FROM_GROUND_TO_INVENTORY
  else if includes (CategoryData.abbrv endData) SLOT_TYPE.GROUND
  then Some FROM_GROUND_TO_EQUIPMENT
  else if includes (CategoryData.abbrv endData) SLOT_TYPE.TOOLBAR
  then Some FROM_GROUND_TO_TOOLBAR
  else None.

(** [gItem.item.hash === hash] for a string [hash]. *)
Definition hasHash (hash : string) (gItem : DroppedItem.t) : bool :=
  match Item.hash (DroppedItem.item gItem) with
  | Some h => String.eqb h hash
  | None => false
  end.

(** [distance2d(player.pos, droppedItem.position) >= 10]. *)
Definition tooFar (p : Player.t) (droppedItem : DroppedItem.t) : bool :=
  Qle_bool 10 (distance2d (Player.pos p) (DroppedItem.position droppedItem)).

Definition handlePickupGround (endData : CategoryData.t) (endSlotIndex : number)
    (hash : option string) : M unit :=
  p <- getPlayer ;;
  if Player.vehicle p then sync
  else
    emptyCheck <- deref (CategoryData.emptyCheck endData) ;;
    if negb (emptyCheck p endSlotIndex) then sync
    else
      match hash with
      | None => sync
      | Some hash =>
          if negb (truthy hash) then sync
          else
            ground <- getGround ;;
            let index := findIndex (hasHash hash) ground in
            if index <=? -1 then sync
            else
              droppedItem <- deref (at_ ground index) ;;
              if tooFar p droppedItem then sync
              else
                let item := DroppedItem.item droppedItem in
                if negb (allItemRulesValid item (CategoryData.name endData)
                           (Some endSlotIndex))
                then sync
                else
                  let dataType := pickupDataType endData in
                  result <- verifyIfSet dataType (Some item)
                              (Num (DroppedItem.gridSpace droppedItem)) (Num (-1)) ;;
                  if negb result then sync
                  else
                    let isEquipmentItem := isFlagEnabled (Item.behavior item) IS_EQUIPMENT in
                    let isGoingToEquipment :=
                      INVENTORY_TYPE.eqb (CategoryData.name endData) INVENTORY_TYPE.EQUIPMENT in
                    wrongSex <- (if isEquipmentItem && isGoingToEquipment
                                 then d <- getData ;;
                                      ret (negb (bool_decide
                                             (Item.sex (Item.data item)
                                              = Some (PlayerData.appearance_sex d))))
                                 else ret false) ;;
                    if wrongSex then sync
                    else
                      ground <- getGround ;;
                      let '(removedItems, rest) := splice1 ground index in
                      putGround rest ;;;
                      if (length removedItems <=? 0)%nat then sync
                      else
                        addItem <- deref (CategoryData.addItem endData) ;;
                        didAddItem <- write (fun p => addItem p item endSlotIndex) ;;
                        if negb didAddItem then sync
                        else
                          save (CategoryData.name endData) ;;;
                          sync ;;;
                          emit (emit_sound2D "item_shuffle_1") ;;;
                          emit (emit_animation "random@mugging4" "pickup_low" 33 1200) ;;;
                          emit (ServerObjectController_remove hash) ;;;
                          emit (ServerItemController_remove hash)
      end.

Definition handleProcessPickup (hash : option string) : M unit :=
  p <- getPlayer ;;
  match getFreeInventorySlot p with
  | None => sync
  | Some openSlot =>
      match JS.find (fun dataInfo => includes "i-" (CategoryData.abbrv dataInfo)) DataHelpers with
      | None => sync
      | Some endData => handlePickupGround endData (Num openSlot) hash
      end
  end.

(** *** The move request *)

Definition processItemMovement (selectedSlot endSlot : string)
    (hash : option string) : M unit :=
  p <- getPlayer ;;
  if negb (Player.valid p) || negb (bool_decide (is_Some (Player.data p))) then ret tt
  (* Do nothing. They're placing it in the same slot. *)
  else if String.eqb selectedSlot endSlot then sync
  else
    let endData := findData endSlot in
    let endSlotIndex := stripCategory endSlot in
    let selectData := findData selectedSlot in
    (* [selectData.name] and [endData.name] are read before anything
       else happens *)
    selectData <- deref selectData ;;
    endData <- deref endData ;;
    let selectName := CategoryData.name selectData in
    let endName := CategoryData.name endData in
    (if INVENTORY_TYPE.eqb selectName INVENTORY_TYPE.TOOLBAR
        && negb (INVENTORY_TYPE.eqb endName INVENTORY_TYPE.TOOLBAR)
     then emit removeAllWeapons else ret tt) ;;;
    if INVENTORY_TYPE.eqb endName INVENTORY_TYPE.GROUND then
      handleDropGround selectedSlot
    else if INVENTORY_TYPE.eqb selectName INVENTORY_TYPE.GROUND then
      handlePickupGround endData endSlotIndex hash
    else
      let selectSlotIndex := stripCategory selectedSlot in
      getItem <- deref (CategoryData.getItem selectData) ;;
      match getItem p selectSlotIndex with
      | None => sync
      | Some itemClone =>
          let differ :=
            negb (String.eqb (CategoryData.abbrv selectData) (CategoryData.abbrv endData)) in
          (* Only run rules on different inventory, equipment, etc. movements. *)
          selectedResult <- (if differ then
                               rules <- deref (getInventoryRule selectData endData) ;;
                               verifyRules (selected rules) (Some itemClone)
                                 selectSlotIndex endSlotIndex
                             else ret true) ;;
          if negb selectedResult then sync
          else
            p <- getPlayer ;;
            (* Check if this is a swap or stack. *)
            if match CategoryData.emptyCheck endData with
               | Some emptyCheck => negb (emptyCheck p endSlotIndex)
               | None => false
               end
            then
              (* End Data Swaps *)
              selectedResult <- (if differ then
                                   getItem <- deref (CategoryData.getItem endData) ;;
                                   let endItemClone := getItem p endSlotIndex in
                                   rules <- deref (getInventoryRule selectData endData) ;;
                                   verifyRules (selected rules) endItemClone
                                     endSlotIndex selectSlotIndex
                                 else ret true) ;;
              if negb selectedResult then sync
              else
                p <- getPlayer ;;
                let '(p', es) := handleSwapOrStack p selectedSlot endSlot in
                putPlayer p' ;;; emits es
            else if negb (allItemRulesValid itemClone endName (Some endSlotIndex)) then sync
            else
              let isEquipmentItem := isFlagEnabled (Item.behavior itemClone) IS_EQUIPMENT in
              wrongSex <- (if isEquipmentItem
                           then d <- getData ;;
                                ret (negb (bool_decide
                                       (Item.sex (Item.data itemClone)
                                        = Some (PlayerData.appearance_sex d))))
                           else ret false) ;;
              if wrongSex then sync
              else
                removeItem <- deref (CategoryData.removeItem selectData) ;;
                didRemoveItem <- write (fun p => removeItem p (Num (Item.slot itemClone))) ;;
                if negb didRemoveItem then sync
                else
                  addItem <- deref (CategoryData.addItem endData) ;;
                  didAddItem <- write (fun p => addItem p itemClone endSlotIndex) ;;
                  if negb didAddItem then sync
                  else
                    save selectName ;;;
                    save endName ;;;
                    sync ;;;
                    emit (emit_sound2D "item_shuffle_1")
      end.

(** *** Use *)

Definition processUse (selectedSlot : string) : M unit :=
  if negb (truthy selectedSlot) then sync
  else
    let slot := stripCategory selectedSlot in
    if isNaN slot then sync
    else
      let slotType := getSlotType selectedSlot in
      d <- getData ;;
      container <- deref (match slotType with
                          | Some slotType => PlayerData.field d slotType
                          | None => None
                          end) ;;
      match JS.find (present (fun i => JS.strictEq (Num (Item.slot i)) slot)) container with
      | None | Some None => sync
      | Some (Some item) =>
          match Item.equipment item with
          | Some equipment =>
              let finish :=
                save INVENTORY_TYPE.EQUIPMENT ;;;
                save INVENTORY_TYPE.INVENTORY ;;;
                sync in
              if includes selectedSlot "t-" then sync
              else if includes selectedSlot "e-" then
                (* Unequip *)
                p <- getPlayer ;;
                match getFreeInventorySlot p with
                | None => sync
                | Some openSlot =>
                    removed <- write (fun p => equipmentRemove p (Num equipment)) ;;
                    if negb removed then sync
                    else
                      write (fun p => inventoryAdd p item (Num openSlot)) ;;;
                      finish
                end
              else
                (* Equip: remove item from inventory. *)
                removed <- write (fun p => inventoryRemove p (Num (Item.slot item))) ;;
                if negb removed then sync
                else
                  (* Check if the equipment slot is taken *)
                  d <- getData ;;
                  let targetSlotIndex :=
                    findIndex
                      (present (fun i => bool_decide (Item.equipment i = Some equipment)))
                      (PlayerData.equipment d) in
                  if 0 <=? targetSlotIndex then
                    removedItem <- deref (mjoin (at_ (PlayerData.equipment d)
                                                   targetSlotIndex)) ;;
                    removed <- write (fun p => equipmentRemove p (Num equipment)) ;;
                    if negb removed then sync
                    else
                      (* Add old item to inventory from equipment *)
                      write (fun p => inventoryAdd p removedItem (Num (Item.slot item))) ;;;
                      write (fun p => equipmentAdd p item (Num equipment)) ;;;
                      finish
                  else
                    write (fun p => equipmentAdd p item (Num equipment)) ;;;
                    finish
          | None =>
              if negb (isFlagEnabled (Item.behavior item) CONSUMABLE) then sync
              else
                item <-
                  (if negb (isFlagEnabled (Item.behavior item) SKIP_CONSUMABLE) then
                     let item := Item.set_quantity item (Item.quantity item - 1) in
                     (if Item.quantity item <=? 0
                      then write (fun p => inventoryRemove p slot) ;;; ret tt
                      else write (fun p => replaceInventoryItem p item) ;;; ret tt) ;;;
                     save INVENTORY_TYPE.INVENTORY ;;;
                     sync ;;;
                     ret item
                   else ret item) ;;
                match Item.event (Item.data item) with
                | Some event =>
                    if truthy event then
                      emit (alt_emit event item slot) ;;;
                      emit (emit_sound2D "item_use")
                    else ret tt
                | None => ret tt
                end
          end
      end.

(** *** Split

    [amount] is what the client sent: [NaN] or a whole number.  A
    fractional amount passes the same guards in the source; the
    quantities it leaves are results of double arithmetic (10 - 0.1 is
    rounded), for which the embedding has no term. *)

Definition processSplit (selectedSlot : string) (amount : number) : M unit :=
  match amount with
  | NaN => sync
  | Num amount =>
      if amount <=? 0 then sync
      else if negb (includes selectedSlot "i-") then sync
      else
        let currentSlotValue := stripCategory selectedSlot in
        d <- getData ;;
        let index :=
          findIndex (present (fun i => JS.strictEq (Num (Item.slot i)) currentSlotValue))
            (PlayerData.inventory d) in
        if index <=? -1 then sync
        else
          p <- getPlayer ;;
          match getFreeInventorySlot p with
          | None => sync
          | Some inventorySlot =>
              clonedItem <- deref (mjoin (at_ (PlayerData.inventory d) index)) ;;
              if Item.quantity clonedItem <? amount then sync
              else if Item.quantity clonedItem <=? amount then sync
              else
                (* player.data.inventory[index].quantity -= amount *)
                putPlayer
                  (Player.set_data p
                     (PlayerData.set_inventory d
                        (<[Z.to_nat index :=
                             Some (Item.set_quantity clonedItem
                                     (Item.quantity clonedItem - amount))]>
                           (PlayerData.inventory d)))) ;;;
                let clonedItem := Item.set_quantity clonedItem amount in
                write (fun p => inventoryAdd p clonedItem (Num inventorySlot)) ;;;
                save INVENTORY_TYPE.INVENTORY ;;;
                sync
          end
  end.

End Engine.

Arguments Normal {A} a.
Arguments TypeError {A}.

(** ** A reference implementation of the collaborators

    The container adapters, the slot parser and the small utilities live
    outside this file.  The definitions below follow their description in
    the specification (sections 3, 4.1, 4.3 and 4.5) and serve to run the
    controller on concrete states. *)

Module Reference.

(** Modelled from the spec: the values of [ITEM_TYPE]
    (shared/enums/itemTypes) are missing; the behaviour flags are a
    bitset, one bit per capability. *)
Definition flag_bit (f : ITEM_TYPE) : Z :=
  match f with
  | CAN_DROP => 1
  | IS_EQUIPMENT => 8
  | DESTROY_ON_DROP => 64
  | CONSUMABLE => 128
  | SKIP_CONSUMABLE => 256
  end.

(** Modelled from the spec: the bitset with the given capabilities. *)
Definition flags (l : list ITEM_TYPE) : Z :=
  fold_right (fun f acc => Z.lor (flag_bit f) acc) 0 l.

(** Modelled from the spec: [isFlagEnabled] (shared/utility/flags) is
    missing; a capability is enabled when its bit is set in the bitset. *)
Definition isFlagEnabled (flags : Z) (flagToCheck : ITEM_TYPE) : bool :=
  negb (Z.land flags (flag_bit flagToCheck) =? 0).



(** Modelled from the spec: [distance2d] (shared/utility/vector) is
    missing.  The spec says of the pickup that the actor's distance to
    the dropped item's position is compared with the radius: the model is
    the Euclidean distance of the two positions.  The root is exact
    whenever it is rational (9.5 apart reads 9.5); an irrational root is
    rounded down to a multiple of one over the denominator of its
    square, which leaves every comparison with a whole radius exact. *)
Definition distance2d (vector1 vector2 : Vector3.t) : Q :=
  let dx := (Vector3.x vector1 - Vector3.x vector2)%Q in
  let dy := (Vector3.y vector1 - Vector3.y vector2)%Q in
  let dz := (Vector3.z vector1 - Vector3.z vector2)%Q in
  let square := (dx * dx + dy * dy + dz * dz)%Q in
  Z.sqrt (Qnum square * Zpos (Qden square)) # Qden square.

(** Modelled from the spec: the decimal digits of a slot index, for
    [stripCategory] below. *)
Definition digit (c : Ascii.ascii) : option Z :=
  let n := Z.of_nat (Ascii.nat_of_ascii c) in
  if (48 <=? n) && (n <=? 57) then Some (n - 48) else None.

(** Modelled from the spec: the value of a string of decimal digits;
    any other character makes the index malformed (NaN). *)
Fixpoint digits (s : string) (acc : Z) : number :=
  match s with
  | EmptyString => Num acc
  | String c s' =>
      match digit c with
      | Some d => digits s' (10 * acc + d)
      | None => NaN
      end
  end.

(** Modelled from the spec: [stripCategory] (server/utility/category)
    is missing.  A slot identifier is a one-letter container prefix, a
    dash and a decimal index; a malformed identifier is rejected (NaN). *)
Definition stripCategory (value : string) : number :=
  match value with
  | String _ (String "-"%char (String c rest)) => digits (String c rest) 0
  | _ => NaN
  end.

(** Modelled from the spec: [getSlotType] (playerFuncs.inventory) is
    missing; the container kind is read off the prefix. *)
Definition getSlotType (slot : string) : option INVENTORY_TYPE.t :=
  if includes slot "i-" then Some INVENTORY_TYPE.INVENTORY
  else if includes slot "t-" then Some INVENTORY_TYPE.TOOLBAR
  else if includes slot "e-" then Some INVENTORY_TYPE.EQUIPMENT
  else if includes slot "g-" then Some INVENTORY_TYPE.GROUND
  else None.

(** *** Slot-indexed containers

    The four adapter operations of section 4.1 of the specification
    ([playerFuncs.inventory.*] is missing), on an array of optional
    items in which an item carries its own slot index. *)

(** Modelled from the spec: an array entry holds the item of a slot. *)
Definition atSlot (slot : number) (i : option Item.t) : bool :=
  match i with
  | Some it => JS.strictEq (Num (Item.slot it)) slot
  | None => false
  end.

(** Modelled from the spec: isSlotFree(actor, slot). *)
Definition isSlotFree (l : list (option Item.t)) (slot : number) : bool :=
  negb (existsb (atSlot slot) l).

(** Modelled from the spec: readItem(actor, slot), the item or absent. *)
Definition readItem (l : list (option Item.t)) (slot : number) : option Item.t :=
  mjoin (JS.find (atSlot slot) l).

(** Modelled from the spec: removeItem(actor, slot), true iff an item
    was present and removed. *)
Definition removeItem (l : list (option Item.t)) (slot : number)
    : bool * list (option Item.t) :=
  let index := findIndex (atSlot slot) l in
  if index <? 0 then (false, l) else (true, snd (splice1 l index)).

(** Modelled from the spec: insertItem(actor, item, slot), false iff the
    slot was occupied or otherwise rejected (here: not an index). *)
Definition insertItem (l : list (option Item.t)) (item : Item.t) (slot : number)
    : bool * list (option Item.t) :=
  match slot with
  | NaN => (false, l)
  | Num s =>
      if isSlotFree l slot then (true, l ++ [Some (Item.set_slot item s)])
      else (false, l)
  end.

(** Modelled from the spec: [replaceInventoryItem] is missing; the item
    record of a slot is replaced by a new one. *)
Definition replaceItem (l : list (option Item.t)) (item : Item.t)
    : bool * list (option Item.t) :=
  let index := findIndex (atSlot (Num (Item.slot item))) l in
  if index <? 0 then (false, l) else (true, <[Z.to_nat index := Some item]> l).

(** Modelled from the spec: [getFreeInventorySlot] is missing; the
    first free slot of a container of bounded capacity. *)
Definition firstFree (capacity : nat) (l : list (option Item.t)) : option Z :=
  JS.find (fun s => isSlotFree l (Num s)) (map Z.of_nat (List.seq 0 capacity)).

(** Modelled from the spec: a container operation applied to one of the
    actor's containers; without [player.data] it fails. *)
Definition onField {A} (get : PlayerData.t -> list (option Item.t))
    (set : PlayerData.t -> list (option Item.t) -> PlayerData.t)
    (f : list (option Item.t) -> A * list (option Item.t)) (fail : A)
    (p : Player.t) : A * Player.t :=
  match Player.data p with
  | Some d => let '(a, l) := f (get d) in (a, Player.set_data p (set d l))
  | None => (fail, p)
  end.

(** Modelled from the spec: a container query applied to one of the
    actor's containers. *)
Definition readField {A} (get : PlayerData.t -> list (option Item.t))
    (f : list (option Item.t) -> A) (fail : A) (p : Player.t) : A :=
  match Player.data p with
  | Some d => f (get d)
  | None => fail
  end.

(** Modelled from the spec: the placement policy of a destination kind
    ([allItemRulesValid] is missing): only droppable items go to the
    ground, only equipment items go to the equipped slots. *)
Definition allItemRulesValid (item : Item.t) (endName : INVENTORY_TYPE.t)
    (endSlotIndex : option number) : bool :=
  match endName with
  | INVENTORY_TYPE.GROUND => isFlagEnabled (Item.behavior item) CAN_DROP
  | INVENTORY_TYPE.EQUIPMENT => isFlagEnabled (Item.behavior item) IS_EQUIPMENT
  | _ => true
  end.

(** Modelled from the spec: the container of a kind with its update,
    for [handleSwapOrStack] below. *)
Definition fieldOps (n : INVENTORY_TYPE.t)
    : option ((PlayerData.t -> list (option Item.t))
              * (PlayerData.t -> list (option Item.t) -> PlayerData.t)) :=
  match n with
  | INVENTORY_TYPE.INVENTORY => Some (PlayerData.inventory, PlayerData.set_inventory)
  | INVENTORY_TYPE.EQUIPMENT => Some (PlayerData.equipment, PlayerData.set_equipment)
  | INVENTORY_TYPE.TOOLBAR => Some (PlayerData.toolbar, PlayerData.set_toolbar)
  | INVENTORY_TYPE.GROUND => None
  end.

(** Modelled from the spec: [handleSwapOrStack] is missing.  Two
    stacks of the same item type are merged into the destination slot,
    otherwise the occupants of the two slots are exchanged; both
    containers are saved and the view is synchronized. *)
Definition handleSwapOrStack (p : Player.t) (selectedSlot endSlot : string)
    : Player.t * list Effect :=
  match Player.data p, getSlotType selectedSlot, getSlotType endSlot with
  | Some d, Some sn, Some en =>
      match fieldOps sn, fieldOps en with
      | Some (sget, sset), Some (eget, eset) =>
          let si := stripCategory selectedSlot in
          let ei := stripCategory endSlot in
          match readItem (sget d) si, readItem (eget d) ei with
          | Some a, Some b =>
              let d1 := sset d (snd (removeItem (sget d) si)) in
              let d2 := eset d1 (snd (removeItem (eget d1) ei)) in
              let d3 :=
                if String.eqb (Item.name a) (Item.name b) then
                  eset d2 (snd (insertItem (eget d2)
                                  (Item.set_quantity b (Item.quantity a + Item.quantity b)) ei))
                else
                  let d2' := eset d2 (snd (insertItem (eget d2) a ei)) in
                  sset d2' (snd (insertItem (sget d2') b si)) in
              (Player.set_data p d3,
               [save_field sn (PlayerData.field d3 sn);
                save_field en (PlayerData.field d3 en);
                sync_inventory (Player.set_data p d3)])
          | _, _ => (p, [sync_inventory p])
          end
      | _, _ => (p, [sync_inventory p])
      end
  | _, _, _ => (p, [sync_inventory p])
  end.

(** Modelled from the spec: the fresh token of a dropped item
    ([sha256Random] is missing); the random source is not modelled,
    the token is derived from the item alone. *)
Definition sha256Random (item : Item.t) : string :=
  ("token:" ++ Item.name item)%string.

(** Modelled from the spec: a point slightly in front of the actor
    ([getPositionFrontOf] is missing; the heading is not modelled). *)
Definition getPositionFrontOf (p : Player.t) (distance : Q) : Vector3.t :=
  Vector3.mk (Vector3.x (Player.pos p) + distance)%Q
    (Vector3.y (Player.pos p)) (Vector3.z (Player.pos p)).

End Reference.

(** Modelled from the spec: the collaborators assembled from the
    definitions above, for a Personal Storage of the given capacity. *)
Definition reference (capacity : nat) : PlayerFuncs := {|
  isInventorySlotFree p s :=
    Reference.readField PlayerData.inventory (fun l => Reference.isSlotFree l s) false p;
  getInventoryItem p s :=
    Reference.readField PlayerData.inventory (fun l => Reference.readItem l s) None p;
  inventoryRemove p s :=
    Reference.onField PlayerData.inventory PlayerData.set_inventory
      (fun l => Reference.removeItem l s) false p;
  inventoryAdd p i s :=
    Reference.onField PlayerData.inventory PlayerData.set_inventory
      (fun l => Reference.insertItem l i s) false p;
  isToolbarSlotFree p s :=
    Reference.readField PlayerData.toolbar (fun l => Reference.isSlotFree l s) false p;
  getToolbarItem p s :=
    Reference.readField PlayerData.toolbar (fun l => Reference.readItem l s) None p;
  toolbarRemove p s :=
    Reference.onField PlayerData.toolbar PlayerData.set_toolbar
      (fun l => Reference.removeItem l s) false p;
  toolbarAdd p i s :=
    Reference.onField PlayerData.toolbar PlayerData.set_toolbar
      (fun l => Reference.insertItem l i s) false p;
  isEquipmentSlotFree p s :=
    Reference.readField PlayerData.equipment (fun l => Reference.isSlotFree l s) false p;
  getEquipmentItem p s :=
    Reference.readField PlayerData.equipment (fun l => Reference.readItem l s) None p;
  equipmentRemove p s :=
    Reference.onField PlayerData.equipment PlayerData.set_equipment
      (fun l => Reference.removeItem l s) false p;
  equipmentAdd p i s :=
    Reference.onField PlayerData.equipment PlayerData.set_equipment
      (fun l => Reference.insertItem l i s) false p;
  getFreeInventorySlot p :=
    Reference.readField PlayerData.inventory (Reference.firstFree capacity) None p;
  replaceInventoryItem p i :=
    Reference.onField PlayerData.inventory PlayerData.set_inventory
      (fun l => Reference.replaceItem l i) false p;
  allItemRulesValid := Reference.allItemRulesValid;
  handleSwapOrStack := Reference.handleSwapOrStack;
  getSlotType := Reference.getSlotType;
  getPositionFrontOf := Reference.getPositionFrontOf;
  stripCategory := Reference.stripCategory;
  isFlagEnabled := Reference.isFlagEnabled;
  distance2d := Reference.distance2d;
  sha256Random := Reference.sha256Random
|}.

(** ** Concrete states

    The states on which the statements below are exercised run on the
    reference collaborators with a Personal Storage of 28 slots. *)

Definition ref : PlayerFuncs := reference 28.

(** An item without equipment kind, token, model or payload. *)
Definition plain (name : string) (slot quantity behavior : Z) : Item.t :=
  Item.mk name slot quantity behavior None None None (Item.mk_data None None).

Definition origin : Vector3.t := Vector3.mk 0 0 0.

(** A valid actor on foot at the origin. *)
Definition actor (inventory equipment toolbar : list (option Item.t)) : Player.t :=
  Player.mk true false origin 0 0
    (Some (PlayerData.mk inventory equipment toolbar 0)).

(** The server right after start, with one actor and some dropped items. *)
Definition world0 (p : Player.t) (ground : list DroppedItem.t) : World :=
  mkWorld p ground ITEM_RULES_init [] [].

(** [addRule] as a state change. *)
Definition register (rule : INVENTORY_RULES) (cb : Callback) (w : World) : World :=
  snd (addRule rule cb w).

Definition deny : Callback := fun _ _ _ _ => false.
Definition allow : Callback := fun _ _ _ _ => true.

Definition bread : Item.t :=
  plain "bread" 0 10 (Reference.flags [CAN_DROP; CONSUMABLE]).
Definition knife : Item.t := plain "knife" 1 1 (Reference.flags [CAN_DROP]).

(** Bread in Personal Storage slot 0, a knife in Toolbar slot 1. *)
Definition bread_and_knife : Player.t := actor [Some bread] [] [Some knife].

(** A rule that lets everything from Personal Storage into the Toolbar
    and one that lets nothing from the Toolbar into Personal Storage. *)
Definition one_way_rules : World :=
  register FROM_TOOLBAR_TO_INVENTORY deny
    (register FROM_INVENTORY_TO_TOOLBAR allow (world0 bread_and_knife [])).


(** A helmet for the actor's sex lying next to the actor, and a rule that
    lets nothing from the ground into the equipped slots. *)
Definition helmet : Item.t :=
  Item.mk "helmet" 0 1 (Reference.flags [CAN_DROP; IS_EQUIPMENT])
    (Some 0) (Some "h1") None (Item.mk_data (Some 0) None).

Definition helmet_on_ground : World :=
  register FROM_GROUND_TO_EQUIPMENT deny
    (world0 (actor [] [] [])
       [DroppedItem.mk 0 helmet (Vector3.mk 1 0 0) 0]).

(** A last potion in Toolbar slot 1 and bread in Personal Storage slot 1. *)
Definition potion (quantity : Z) : Item.t :=
  plain "potion" 1 quantity (Reference.flags [CONSUMABLE]).

Definition potion_in_toolbar : World :=
  world0 (actor [Some (Item.set_slot bread 1)] [] [Some (potion 1)]) [].

Definition potion_in_inventory (quantity : Z) : World :=
  world0 (actor [Some (potion quantity)] [] []) [].


(** A crate on the ground with token [c1] at the given position. *)
Definition crate : Item.t :=
  Item.mk "crate" 0 3 (Reference.flags [CAN_DROP]) None (Some "c1") None
    (Item.mk_data None None).

Definition crate_at (position : Vector3.t) : World :=
  world0 (actor [] [] []) [DroppedItem.mk 0 crate position 0].

(** A medkit flagged droppable, destroyed on drop. *)
Definition medkit : Item.t :=
  plain "medkit" 2 1 (Reference.flags [CAN_DROP; DESTROY_ON_DROP]).

Definition medkit_in_inventory : World :=
  world0 (actor [Some medkit] [] []) [].

(** Three rules registered for one transition kind: the second fails. *)
Definition three_rules : World :=
  register FROM_INVENTORY_TO_TOOLBAR allow
    (register FROM_INVENTORY_TO_TOOLBAR deny
       (register FROM_INVENTORY_TO_TOOLBAR allow (world0 bread_and_knife []))).

(** ** Vocabulary of the statements *)

(** The world after further rule invocations were recorded. *)
Definition logged (w : World) (cs : list RuleCall) : World :=
  mkWorld (player w) (GROUND_ITEMS w) (ITEM_RULES w) (calls w ++ cs) (effects w).

(** The world after further collaborator calls. *)
Definition did (w : World) (es : list Effect) : World :=
  mkWorld (player w) (GROUND_ITEMS w) (ITEM_RULES w) (calls w) (effects w ++ es).

(** The record left by invoking every callback of [cbs] in list order,
    the first of them at index [i]. *)
Fixpoint invocations (cbs : list Callback) (i : nat) (rule : INVENTORY_RULES)
    (item : option Item.t) (selectedSlot endSlot : number) : list RuleCall :=
  match cbs with
  | [] => []
  | cb :: rest =>
      mkRuleCall rule i item selectedSlot endSlot (cb item selectedSlot endSlot rule)
      :: invocations rest (S i) rule item selectedSlot endSlot
  end.

(** The calls that put a dropped item into the world: the registration
    with the item and object streamers and the drop event. *)
Definition registersGround (e : Effect) : bool :=
  match e with
  | ServerItemController_append _ _ _ _
  | ServerObjectController_append _ _ _ _ _ _
  | alt_emit_DROPPED_ITEM _ => true
  | _ => false
  end.





(** Every recorded invocation returned true. *)
Definition allPassed (cs : list RuleCall) : bool := forallb didPass cs.

(** ** The rest of the controller and the world clock *)

(** [getDroppedItemsByGridSpace]: the dropped items of a dimension and a
    band, in the order of the Ground Store. *)
Definition getDroppedItemsByGridSpace (dimension gridSpace : Z)
    : M (list DroppedItem.t) :=
  fun w =>
    (Normal
       (List.filter
          (fun item => (DroppedItem.gridSpace item =? gridSpace)
                       && (DroppedItem.dimension item =? dimension))
          (GROUND_ITEMS w)),
     w).

(** Every transition kind has a list in the table. *)
Definition rulesTotal (rules : gmap INVENTORY_RULES (list Callback)) : Prop :=
  forall rule, is_Some (rules !! rule).

(** A save is pending in a sequence of calls when no resynchronization
    follows the last [save.field]. *)
Fixpoint pendingSave (pending : bool) (es : list Effect) : bool :=
  match es with
  | [] => pending
  | save_field _ _ :: es => pendingSave true es
  | sync_inventory _ :: es => pendingSave false es
  | _ :: es => pendingSave pending es
  end.

(** The Personal Storage, Toolbar and Equipped rows of the adapter table
    on the reference collaborators. *)
Definition inventoryRow : CategoryData.t :=
  CategoryData.mk SLOT_TYPE.INVENTORY INVENTORY_TYPE.INVENTORY
    (Some (isInventorySlotFree (PlayerFuncs := ref)))
    (Some (getInventoryItem (PlayerFuncs := ref)))
    (Some (inventoryRemove (PlayerFuncs := ref)))
    (Some (inventoryAdd (PlayerFuncs := ref))).

Definition toolbarRow : CategoryData.t :=
  CategoryData.mk SLOT_TYPE.TOOLBAR INVENTORY_TYPE.TOOLBAR
    (Some (isToolbarSlotFree (PlayerFuncs := ref)))
    (Some (getToolbarItem (PlayerFuncs := ref)))
    (Some (toolbarRemove (PlayerFuncs := ref)))
    (Some (toolbarAdd (PlayerFuncs := ref))).

Definition equipmentRow : CategoryData.t :=
  CategoryData.mk SLOT_TYPE.EQUIPMENT INVENTORY_TYPE.EQUIPMENT
    (Some (isEquipmentSlotFree (PlayerFuncs := ref)))
    (Some (getEquipmentItem (PlayerFuncs := ref)))
    (Some (equipmentRemove (PlayerFuncs := ref)))
    (Some (equipmentAdd (PlayerFuncs := ref))).


(** ** World clock, weather rotation and grid (core/server/systems/world.ts)

    The numbers of the clock (hours, minutes and the configured minutes
    per tick) are integers; heights are rationals.  The configuration
    [DEFAULT_CONFIG] (../athena/main) is not part of the file: its
    constants are the fields of [Config], and its array
    [WEATHER_ROTATION], which the clock mutates, is part of the state. *)

Module WorldSystem.

(** An element of [World.minMaxGroups]. *)
Module Band.
Record t := mk { minY : Q; maxY : Q }.
End Band.

(** What [new Date(Date.now())] answers to [getMinutes] and [getHours]. *)
Module Date.
Record t := mk { getMinutes : Z; getHours : Z }.
End Date.

Record Config := mkConfig {
  USE_SERVER_TIME : bool;
  MINUTES_PER_MINUTE : Z;
  BOOTUP_HOUR : Z;
  BOOTUP_MINUTE : Z
}.

(** Best kept at 6 unless you know what you're doing. *)
Definition worldDivision : Z := 6.
Definition maxY : Q := 8000.
Definition minY : Q := - (4000).

(** The module variables, the static fields of [World] and the weather
    array of the configuration.  An entry of the weather array is a
    weather name or [undefined]. *)
Record State := mkState {
  weatherOverride : bool;
  weatherOverrideName : option string;
  timeOverride : bool;
  timeOverrideHour : option number;
  minMaxGroups : list Band.t;
  hour : Z;
  minute : Z;
  WEATHER_ROTATION : list (option string)
}.

Definition set_minMaxGroups (groups : list Band.t) (s : State) : State :=
  mkState (weatherOverride s) (weatherOverrideName s) (timeOverride s)
    (timeOverrideHour s) groups (hour s) (minute s) (WEATHER_ROTATION s).

Definition set_hour (h : Z) (s : State) : State :=
  mkState (weatherOverride s) (weatherOverrideName s) (timeOverride s)
    (timeOverrideHour s) (minMaxGroups s) h (minute s) (WEATHER_ROTATION s).

Definition set_minute (m : Z) (s : State) : State :=
  mkState (weatherOverride s) (weatherOverrideName s) (timeOverride s)
    (timeOverrideHour s) (minMaxGroups s) (hour s) m (WEATHER_ROTATION s).

Definition set_WEATHER_ROTATION (r : list (option string)) (s : State) : State :=
  mkState (weatherOverride s) (weatherOverrideName s) (timeOverride s)
    (timeOverrideHour s) (minMaxGroups s) (hour s) (minute s) r.

(** [setOverrideWeather(value, _weatherName = '')]; [EXTRA_SUNNY] is
    the value of [WORLD_WEATHER.EXTRA_SUNNY]. *)
Definition setOverrideWeather (EXTRA_SUNNY : string) (value : bool)
    (_weatherName : string) (s : State) : State :=
  let _weatherName := if negb (truthy _weatherName) then EXTRA_SUNNY else _weatherName in
  mkState value (Some _weatherName) (timeOverride s) (timeOverrideHour s)
    (minMaxGroups s) (hour s) (minute s) (WEATHER_ROTATION s).

(** [setOverrideTime(value, _hour)]: an hour that arrives as a string is
    parsed with [parseInt]. *)
Definition setOverrideTime (parseInt : string -> number) (value : bool)
    (_hour : number + string) (s : State) : State :=
  let _hour := match _hour with inl n => n | inr str => parseInt str end in
  mkState (weatherOverride s) (weatherOverrideName s) value (Some _hour)
    (minMaxGroups s) (hour s) (minute s) (WEATHER_ROTATION s).

(** The loop of [generateGrid]: [fuel] iterations are left, [i] is the
    loop counter.  The source computes in doubles; the embedding is for
    the divisions that divide 12000, for which the quotient, its
    multiples and the differences are whole numbers and the doubles are
    exact (see [generateGrid]). *)
Fixpoint generateGridLoop (fuel : nat) (division : Z) (i : Z)
    (groups : list Band.t) : list Band.t :=
  match fuel with
  | O => groups
  | S fuel =>
      let total := (maxY + Qabs minY)%Q in
      let result :=
        Band.mk (maxY - 2000 - (total / inject_Z division) * inject_Z i)%Q
                (maxY - (total / inject_Z division) * inject_Z i)%Q in
      generateGridLoop fuel division (i + 1) (groups ++ [result])
  end.

(** [generateGrid(division)] for an integer [division] that divides
    12000, the height of the map: the loop runs while [i < division].
    For any other division the bounds the source computes are rounded
    doubles, for which the embedding has no term. *)
Definition generateGrid (division : Z) (exact : Z.divide division 12000)
    (s : State) : State :=
  set_minMaxGroups (generateGridLoop (Z.to_nat division) division 0 []) s.

(** [arr.pop()] followed by [arr.unshift(endElement)]: popping an empty
    array answers [undefined]. *)
Definition popUnshift (l : list (option string)) : list (option string) :=
  let endElement := default None (last l) in
  endElement :: removelast l.

Definition updateWorldTime (cfg : Config) (now : Date.t) (s : State) : State :=
  if USE_SERVER_TIME cfg then
    let s := set_minute (Date.getMinutes now) s in
    let s := set_hour (Date.getHours now) s in
    (* Updates Weather Every 30 Minutes *)
    if negb (minute s =? 30) && negb (minute s =? 0) then s
    else set_WEATHER_ROTATION (popUnshift (WEATHER_ROTATION s)) s
  else
    let s := set_minute (minute s + MINUTES_PER_MINUTE cfg) s in
    let s :=
      if 60 <=? minute s then
        let s := set_minute 0 s in
        let s := set_hour (hour s + 1) s in
        set_WEATHER_ROTATION (popUnshift (WEATHER_ROTATION s)) s
      else s in
    if 24 <=? hour s then set_hour 0 s else s.

(** The test of [getGridSpace] on one band. *)
Definition inBand (player : option Player.t) (pos : Band.t) : bool :=
  match player with
  | None => false
  | Some player =>
      Player.valid player
      && negb (Qle_bool (Vector3.y (Player.pos player)) (Band.minY pos))
      && negb (Qle_bool (Band.maxY pos) (Vector3.y (Player.pos player)))
  end.

Definition getGridSpace (player : option Player.t) (s : State) : Z :=
  let gridSpace := findIndex (inBand player) (minMaxGroups s) in
  if gridSpace =? -1 then 0 else gridSpace.

(** [getWeatherByGrid(gridIndex)] for an index that is a natural number;
    reading past the end of the array answers [undefined]. *)
Definition getWeatherByGrid (gridIndex : nat) (s : State) : option string :=
  if weatherOverride s then weatherOverrideName s
  else mjoin (WEATHER_ROTATION s !! gridIndex).

(** [getWorldHour()]: the override hour may be [null] (never set). *)
Definition getWorldHour (s : State) : option number :=
  if timeOverride s then timeOverrideHour s
  else Some (Num (hour s)).

Definition getWorldMinute (s : State) : Z := minute s.

(** The state after the module is loaded: the module variables and the
    static fields at their initializers, then [generateGrid(worldDivision)]
    and one [updateWorldTime()]. *)
Definition load (cfg : Config) (rotation : list (option string)) (now : Date.t) : State :=
  updateWorldTime cfg now
    (generateGrid worldDivision (ex_intro _ 2000 eq_refl)
       (mkState false None false None [] (BOOTUP_HOUR cfg) (BOOTUP_MINUTE cfg) rotation)).

(** [n] runs of the interval callback, one per element of [nows]. *)
Definition ticks (cfg : Config) (nows : list Date.t) (s : State) : State :=
  fold_left (fun s now => updateWorldTime cfg now s) nows s.

(** A game clock of five minutes per tick that starts at 9:00, and the
    state five minutes before midnight with three weathers. *)
Definition gameClock : Config := mkConfig false 5 9 0.

Definition beforeMidnight : State :=
  mkState false None false None [] 23 55 [Some "RAIN"; Some "CLEAR"; Some "FOGGY"].

End WorldSystem.

(** ** The rule registry *)

Section RegistryFacts.

Implicit Types (w : World) (cbs : list Callback) (cs : list RuleCall).

Lemma logged_nil w : logged w [] = w.
Proof. destruct w; unfold logged; simpl. now rewrite app_nil_r. Qed.

Lemma logged_logged w cs1 cs2 : logged (logged w cs1) cs2 = logged w (cs1 ++ cs2).
Proof. unfold logged; simpl. now rewrite app_assoc. Qed.

Lemma did_nil w : did w [] = w.
Proof. destruct w; unfold did; simpl. now rewrite app_nil_r. Qed.

Lemma invocations_app cbs1 cbs2 i rule item s e :
  invocations (cbs1 ++ cbs2) i rule item s e
  = invocations cbs1 i rule item s e
    ++ invocations cbs2 (i + length cbs1) rule item s e.
Proof.
  revert i; induction cbs1 as [|cb cbs1 IH]; intros i; simpl.
  - now rewrite Nat.add_0_r.
  - rewrite IH. do 3 f_equal. lia.
Qed.

Lemma allPassed_invocations cbs i rule item s e :
  allPassed (invocations cbs i rule item s e)
  = forallb (fun cb => cb item s e rule) cbs.
Proof.
  revert i; induction cbs as [|cb cbs IH]; intros i; simpl; [reflexivity|].
  now rewrite <- (IH (S i)).
Qed.

(** While callbacks pass, the loop goes on with the next index. *)
Lemma verifyLoop_passing pre rest i rule item s e w :
  forallb (fun cb => cb item s e rule) pre = true ->
  verifyLoop (pre ++ rest) i rule item s e w
  = verifyLoop rest (i + length pre) rule item s e
      (logged w (invocations pre i rule item s e)).
Proof.
  revert i w; induction pre as [|cb pre IH]; intros i w Hpre; simpl.
  - now rewrite Nat.add_0_r, logged_nil.
  - simpl in Hpre. apply andb_prop in Hpre as [Hcb Hpre].
    unfold bind, invoke. rewrite Hcb.
    rewrite IH by assumption.
    unfold logged; simpl. rewrite <- app_assoc. simpl.
    now replace (i + S (length pre))%nat with (S (i + length pre)) by lia.
Qed.

(** What one run of the loop leaves behind, whatever the callbacks:
    it stops at the first callback that fails. *)
Lemma verifyLoop_log cbs i rule item s e w :
  exists cs,
    verifyLoop cbs i rule item s e w = (Normal (allPassed cs), logged w cs)
    /\ Forall (fun c => call_rule c = rule) cs.
Proof.
  revert i w; induction cbs as [|cb cbs IH]; intros i w; simpl.
  - exists []. now rewrite logged_nil.
  - unfold bind, invoke at 1.
    destruct (cb item s e rule) eqn:Hcb.
    + destruct (IH (S i) (logged w [mkRuleCall rule i item s e true]))
        as (cs & Hcs & Hrule).
      exists (mkRuleCall rule i item s e true :: cs).
      unfold logged in Hcs |- *; simpl in Hcs |- *.
      rewrite Hcs. rewrite <- app_assoc. split; [reflexivity|].
      constructor; [reflexivity | assumption].
    + exists [mkRuleCall rule i item s e false]. split; [reflexivity|].
      constructor; [reflexivity | constructor].
Qed.

(** A verification only adds to the record of invocations, and only
    invocations of the rule it was asked to verify; its result is true
    exactly when all of them passed. *)
Lemma verifyRules_log rule item s e w :
  exists c cs,
    verifyRules rule item s e w = (c, logged w cs)
    /\ (c = Normal (allPassed cs) \/ (c = TypeError /\ cs = []))
    /\ Forall (fun c => call_rule c = rule) cs.
Proof.
  unfold verifyRules. destruct (ITEM_RULES w !! rule) as [cbs|].
  - destruct (length cbs <=? 0)%nat.
    + exists (Normal true), []. rewrite logged_nil. auto.
    + destruct (verifyLoop_log cbs 0 rule item s e w) as (cs & Hcs & Hrule).
      exists (Normal (allPassed cs)), cs. auto.
  - exists TypeError, []. rewrite logged_nil. auto.
Qed.

Lemma verifyIfSet_log dataType item s e w :
  exists c cs,
    verifyIfSet dataType item s e w = (c, logged w cs)
    /\ (c = Normal (allPassed cs) \/ (c = TypeError /\ cs = []))
    /\ Forall (fun c => Some (call_rule c) = dataType) cs.
Proof.
  destruct dataType as [rule|]; simpl.
  - destruct (verifyRules_log rule item s e w) as (c & cs & Hv & Hc & Hrule).
    exists c, cs. repeat split; try assumption.
    eapply Forall_impl; [exact Hrule|]. intros ? ->. reflexivity.
  - exists (Normal true), []. unfold ret. rewrite logged_nil. auto.
Qed.

(** C6. Rule verification runs the callbacks registered for a
    transition kind in registration order: [addRule] appends at the
    end of the list and [verifyRules] invokes from index 0 upwards.
    The first callback that returns false ends the run with an overall
    false, and no later callback is invoked; when every callback returns
    true the result is true; an empty list yields true without any
    invocation. *)
Theorem verifyRules_in_order_short_circuit
    (w : World) (rule : INVENTORY_RULES) (cbs : list Callback)
    (item : option Item.t) (s e : number) :
  ITEM_RULES w !! rule = Some cbs ->
  (cbs = [] -> verifyRules rule item s e w = (Normal true, w))
  /\ (forall pre cb post,
        cbs = pre ++ cb :: post ->
        forallb (fun c => c item s e rule) pre = true ->
        cb item s e rule = false ->
        verifyRules rule item s e w
        = (Normal false, logged w (invocations (pre ++ [cb]) 0 rule item s e)))
  /\ (forallb (fun c => c item s e rule) cbs = true ->
      verifyRules rule item s e w
      = (Normal true, logged w (invocations cbs 0 rule item s e)))
  /\ (forall cb,
        addRule rule cb w
        = (Normal true,
           mkWorld (player w) (GROUND_ITEMS w)
             (<[rule := cbs ++ [cb]]> (ITEM_RULES w)) (calls w) (effects w))).
Proof.
  intros Hreg. repeat split.
  - intros ->. unfold verifyRules. now rewrite Hreg.
  - intros pre cb post -> Hpre Hcb.
    unfold verifyRules. rewrite Hreg.
    destruct (length (pre ++ cb :: post) <=? 0)%nat eqn:Hlen.
    { apply Nat.leb_le in Hlen. rewrite length_app in Hlen. simpl in Hlen. lia. }
    rewrite verifyLoop_passing by assumption.
    simpl. unfold bind, invoke. rewrite Hcb. unfold ret.
    rewrite invocations_app. simpl. rewrite Hcb.
    unfold logged; simpl. now rewrite app_assoc.
  - intros Hall. unfold verifyRules. rewrite Hreg.
    destruct (length cbs <=? 0)%nat eqn:Hlen.
    { destruct cbs; [now rewrite logged_nil | simpl in Hlen; discriminate]. }
    rewrite <- (app_nil_r cbs) at 1.
    rewrite verifyLoop_passing by assumption. reflexivity.
  - intros cb. unfold addRule. now rewrite Hreg.
Qed.

End RegistryFacts.

(** ** Running controller code symbolically *)

(** Reduces what is known of a run: Boolean connectives become
    conditionals, projections of an explicit world are taken. *)
Ltac norm_in H :=
  cbv beta iota zeta delta [negb andb orb logged did] in H;
  cbn [player GROUND_ITEMS ITEM_RULES calls effects] in H.

Ltac norm_all :=
  cbv beta iota zeta delta [negb andb orb logged did] in *;
  cbn [player GROUND_ITEMS ITEM_RULES calls effects] in *.

(** Unfolds the monad and the primitive operations. *)
Ltac unfold_M :=
  unfold save, sync, write, emit, emits, getData, getGround, putGround,
    getPlayer, putPlayer, deref, throw, ret, bind in *;
  norm_all.

(** One branching point of the run recorded in [H]: a rule verification
    is replaced by its record; any other scrutinee is rewritten when its
    value is known and split otherwise. *)
Ltac branch H :=
  match type of H with
  | context [verifyIfSet ?d ?i ?s ?e ?w] =>
      match goal with
      | E : verifyIfSet d i s e w = _ |- _ => rewrite E in H
      end
  | context [verifyRules ?r ?i ?s ?e ?w] =>
      match goal with
      | E : verifyRules r i s e w = _ |- _ => rewrite E in H
      end
  | context [verifyIfSet ?d ?i ?s ?e ?w] =>
      let c := fresh "c" in
      let cs := fresh "cs" in
      let Hv := fresh "Hv" in
      let Hc := fresh "Hc" in
      let Hr := fresh "Hrule" in
      destruct (verifyIfSet_log d i s e w) as (c & cs & Hv & Hc & Hr);
      rewrite Hv in H; clear Hv;
      destruct Hc as [-> | [-> ->]]
  | context [verifyRules ?r ?i ?s ?e ?w] =>
      let c := fresh "c" in
      let cs := fresh "cs" in
      let Hv := fresh "Hv" in
      let Hc := fresh "Hc" in
      let Hr := fresh "Hrule" in
      destruct (verifyRules_log r i s e w) as (c & cs & Hv & Hc & Hr);
      rewrite Hv in H; clear Hv;
      destruct Hc as [-> | [-> ->]]
  | context [match ?x with _ => _ end] =>
      lazymatch x with
      | context [match _ with _ => _ end] => fail
      | _ => idtac
      end;
      match goal with
      | E : x = _ |- _ => rewrite E in H
      | _ => destruct x eqn:?
      end
  end;
  norm_in H.

(** ** Ground pickup *)

Section PickupFacts.

Context {PF : PlayerFuncs}.

Lemma find_some {A} (f : A -> bool) (l : list A) (a : A) :
  JS.find f l = Some a -> In a l /\ f a = true.
Proof.
  induction l as [|b l IH]; simpl; [discriminate|].
  destruct (f b) eqn:Hb.
  - intros [= ->]. auto.
  - intros H. destruct (IH H). auto.
Qed.

(** A slot identifier resolves to a row of the adapter table. *)
Lemma findData_row slot row :
  findData slot = Some row -> In row DataHelpers.
Proof. intros H. apply find_some in H. tauto. Qed.

(** The row [handleProcessPickup] picks is the Personal Storage one. *)
Lemma pickup_row :
  JS.find (fun dataInfo => includes "i-" (CategoryData.abbrv dataInfo)) DataHelpers
  = nth_error DataHelpers 0.
Proof. reflexivity. Qed.

(** C5. A pickup whose token resolves to a dropped item at a distance
    of at least 10 from the actor is rejected: the Ground Store, the
    actor's containers, the rule table and the record of rule
    invocations are what they were, and the one call made is the
    resynchronization of the view.  This holds for the pickup itself,
    for the pickup request without a destination slot, and for a move
    request whose source is the ground. *)
Theorem pickup_out_of_range_rejected
    (w : World) (hash : string) (droppedItem : DroppedItem.t) :
  at_ (GROUND_ITEMS w) (findIndex (hasHash hash) (GROUND_ITEMS w)) = Some droppedItem ->
  (10 <= distance2d (Player.pos (player w)) (DroppedItem.position droppedItem))%Q ->
  (forall endData endSlotIndex,
      is_Some (CategoryData.emptyCheck endData) ->
      handlePickupGround endData endSlotIndex (Some hash) w
      = (Normal tt, did w [sync_inventory (player w)]))
  /\ handleProcessPickup (Some hash) w = (Normal tt, did w [sync_inventory (player w)])
  /\ (forall selectedSlot endSlot selectData endData,
        Player.valid (player w) = true ->
        is_Some (Player.data (player w)) ->
        selectedSlot <> endSlot ->
        findData selectedSlot = Some selectData ->
        findData endSlot = Some endData ->
        CategoryData.name selectData = INVENTORY_TYPE.GROUND ->
        CategoryData.name endData <> INVENTORY_TYPE.GROUND ->
        processItemMovement selectedSlot endSlot (Some hash) w
        = (Normal tt, did w [sync_inventory (player w)])).
Proof.
  intros Hitem Hfar.
  assert (Htoo : tooFar (player w) droppedItem = true).
  { unfold tooFar. now apply Qle_bool_iff. }
  assert (Hpick : forall endData endSlotIndex,
             is_Some (CategoryData.emptyCheck endData) ->
             handlePickupGround endData endSlotIndex (Some hash) w
             = (Normal tt, did w [sync_inventory (player w)])).
  { intros endData endSlotIndex [emptyCheck Hcheck].
    unfold handlePickupGround. unfold_M. rewrite Hcheck.
    destruct (Player.vehicle (player w)); [reflexivity|].
    destruct (emptyCheck (player w) endSlotIndex); [|reflexivity]. simpl.
    destruct (truthy hash); [|reflexivity]. simpl.
    destruct (findIndex (hasHash hash) (GROUND_ITEMS w) <=? -1); [reflexivity|].
    rewrite Hitem. now rewrite Htoo. }
  split; [exact Hpick|]. split.
  - unfold handleProcessPickup. unfold_M. rewrite pickup_row. simpl.
    destruct (getFreeInventorySlot (player w)); [|reflexivity].
    apply Hpick. simpl. eauto.
  - intros selectedSlot endSlot selectData endData Hvalid Hdata Hneq Hsel Hend Hground Hdest.
    unfold processItemMovement. unfold_M.
    rewrite Hvalid, Hsel, Hend, Hground.
    rewrite bool_decide_eq_true_2 by assumption.
    apply String.eqb_neq in Hneq. rewrite Hneq. simpl.
    apply findData_row in Hend.
    simpl in Hend.
    destruct Hend as [<-|[<-|[<-|[<-|[]]]]]; simpl in Hdest |- *;
      try congruence; apply Hpick; simpl; eauto.
Qed.

(** A pickup into the equipped slots never invokes a rule, whatever is
    registered. *)
Lemma pickup_into_equipment_never_verifies
    (w : World) (endData : CategoryData.t) (endSlotIndex : number)
    (hash : option string) :
  In endData DataHelpers ->
  CategoryData.name endData = INVENTORY_TYPE.EQUIPMENT ->
  calls (snd (handlePickupGround endData endSlotIndex hash w)) = calls w.
Proof.
  intros Hrow Hname. simpl in Hrow.
  destruct Hrow as [<-|[<-|[<-|[<-|[]]]]]; try discriminate Hname.
  destruct (handlePickupGround _ endSlotIndex hash w) as [c w'] eqn:H.
  unfold handlePickupGround in H. unfold_M.
  change (pickupDataType _) with (@None INVENTORY_RULES) in H.
  unfold verifyIfSet in H. unfold_M.
  repeat branch H; injection H as <- <-; reflexivity.
Qed.

End PickupFacts.

(** ** Ground drop *)

Section DropFacts.

Context {PF : PlayerFuncs}.

(** C9. A drop of an item flagged destroyed-on-drop never creates a
    ground record: whatever the outcome, the Ground Store is what it
    was and neither streamer is called nor the drop event emitted.
    When the drop is accepted (actor on foot, item droppable and
    placeable, rules passed, removal reported), the actor is the one
    the removal from the source container left behind, the source
    container is saved, and the calls end with the destruction
    animation and message. *)
Theorem destroy_on_drop_leaves_no_ground_record
    (w : World) (selectedSlot : string) (selectData : CategoryData.t)
    (getItem : Player.t -> number -> option Item.t) (itemClone : Item.t) :
  findData selectedSlot = Some selectData ->
  CategoryData.getItem selectData = Some getItem ->
  getItem (player w) (stripCategory selectedSlot) = Some itemClone ->
  isFlagEnabled (Item.behavior itemClone) DESTROY_ON_DROP = true ->
  (exists es,
      GROUND_ITEMS (snd (handleDropGround selectedSlot w)) = GROUND_ITEMS w
      /\ effects (snd (handleDropGround selectedSlot w)) = effects w ++ es
      /\ existsb registersGround es = false)
  /\ (forall w1 removeItem p' d',
        Player.vehicle (player w) = false ->
        isFlagEnabled (Item.behavior itemClone) CAN_DROP = true ->
        allItemRulesValid itemClone INVENTORY_TYPE.GROUND None = true ->
        verifyIfSet (dropDataType selectData) (Some itemClone)
          (stripCategory selectedSlot) (Num (-1)) w = (Normal true, w1) ->
        CategoryData.removeItem selectData = Some removeItem ->
        removeItem (player w) (Num (Item.slot itemClone)) = (true, p') ->
        Player.data p' = Some d' ->
        handleDropGround selectedSlot w
        = (Normal tt,
           mkWorld p' (GROUND_ITEMS w) (ITEM_RULES w) (calls w1)
             (effects w
              ++ [save_field (CategoryData.name selectData)
                    (PlayerData.field d' (CategoryData.name selectData));
                  sync_inventory p';
                  emit_sound2D "item_drop_1";
                  emit_animation "random@mugging4" "pickup_low" 33 1200;
                  emit_message (Item.name itemClone ++ " was destroyed on drop.")%string]))).
Proof.
  intros Hsel Hget Hitem Hdestroy. split.
  - destruct (handleDropGround selectedSlot w) as [c w'] eqn:H.
    unfold handleDropGround in H. unfold_M.
    repeat branch H;
      injection H as <- <-; simpl;
      try (exists []; rewrite app_nil_r; auto; fail);
      try (eexists; split; [reflexivity|]; split;
           [repeat rewrite <- app_assoc; reflexivity | reflexivity]).
  - intros w1 removeItem p' d' Hfoot Hdrop Hvalid Hrules Hrem Hremoved Hdata.
    destruct (verifyIfSet_log (dropDataType selectData) (Some itemClone)
                (stripCategory selectedSlot) (Num (-1)) w) as (c & cs & Hv & _ & _).
    rewrite Hv in Hrules. injection Hrules as -> <-.
    assert (Hname : INVENTORY_TYPE.eqb (CategoryData.name selectData)
                      INVENTORY_TYPE.GROUND = false).
    { apply findData_row in Hsel. simpl in Hsel.
      destruct Hsel as [<-|[<-|[<-|[<-|[]]]]]; simpl in *; congruence. }
    simpl in Hremoved.
    destruct (handleDropGround selectedSlot w) as [c' w'] eqn:H.
    unfold handleDropGround in H. unfold_M.
    repeat branch H. injection H as <- <-. simpl.
    repeat rewrite <- app_assoc. reflexivity.
Qed.

End DropFacts.

(** ** Move and drop requests *)

Section MoveFacts.

Context {PF : PlayerFuncs}.

Lemma INVENTORY_TYPE_eqb_eq (a b : INVENTORY_TYPE.t) :
  INVENTORY_TYPE.eqb a b = true <-> a = b.
Proof. destruct a, b; simpl; split; congruence. Qed.

Lemma INVENTORY_TYPE_eqb_neq (a b : INVENTORY_TYPE.t) :
  INVENTORY_TYPE.eqb a b = false <-> a <> b.
Proof. destruct a, b; simpl; split; congruence. Qed.


Lemma app_same_head {A} (l cs : list A) : l = l ++ cs -> cs = [].
Proof.
  intros H. rewrite <- (app_nil_r l) in H at 1.
  apply app_inv_head in H. congruence.
Qed.






(** In a move between two owned containers every rule invocation is one
    of the source-to-destination kind: the kind [getInventoryRule]
    returns for the opposite direction is never verified, on the swap
    path either. *)
Lemma move_verifies_forward_rule_only
    (w : World) (selectedSlot endSlot : string) (hash : option string)
    (selectData endData : CategoryData.t) (rules : RulePair)
    (cs : list RuleCall) :
  findData selectedSlot = Some selectData ->
  findData endSlot = Some endData ->
  CategoryData.name selectData <> INVENTORY_TYPE.GROUND ->
  CategoryData.name endData <> INVENTORY_TYPE.GROUND ->
  getInventoryRule selectData endData = Some rules ->
  calls (snd (processItemMovement selectedSlot endSlot hash w)) = calls w ++ cs ->
  Forall (fun c => call_rule c = selected rules) cs.
Proof.
  intros Hsel Hend Hs He Hrules.
  apply INVENTORY_TYPE_eqb_neq in Hs, He.
  destruct (processItemMovement selectedSlot endSlot hash w) as [c w'] eqn:H.
  intros Hcalls.
  unfold processItemMovement in H. unfold_M.
  repeat branch H; injection H as <- <-; cbn [fst snd] in *; norm_all.
  all: repeat rewrite <- app_assoc in Hcalls.
  all: try (apply app_same_head in Hcalls; subst cs; constructor).
  all: apply app_inv_head in Hcalls; subst cs.
  all: rewrite ?Forall_app; repeat split; assumption.
Qed.

(** Whatever container a used consumable was read from, the decrement is
    written to Personal Storage: the actor after the use is the one
    [inventoryRemove] or [replaceInventoryItem] returns. *)
Lemma use_writes_personal_storage
    (w : World) (selectedSlot : string) (d : PlayerData.t)
    (slotType : INVENTORY_TYPE.t) (container : list (option Item.t))
    (item : Item.t) :
  truthy selectedSlot = true ->
  isNaN (stripCategory selectedSlot) = false ->
  Player.data (player w) = Some d ->
  getSlotType selectedSlot = Some slotType ->
  PlayerData.field d slotType = Some container ->
  JS.find (present (fun i => JS.strictEq (Num (Item.slot i)) (stripCategory selectedSlot)))
    container = Some (Some item) ->
  Item.equipment item = None ->
  isFlagEnabled (Item.behavior item) CONSUMABLE = true ->
  isFlagEnabled (Item.behavior item) SKIP_CONSUMABLE = false ->
  player (snd (processUse selectedSlot w))
  = snd (if Item.quantity item - 1 <=? 0
         then inventoryRemove (player w) (stripCategory selectedSlot)
         else replaceInventoryItem (player w)
                (Item.set_quantity item (Item.quantity item - 1))).
Proof.
  intros Hslot Hnan Hdata Htype Hfield Hfind Hequip Hcons Hskip.
  destruct (processUse selectedSlot w) as [c w'] eqn:H.
  unfold processUse in H. unfold_M. simpl Item.quantity in H.
  repeat branch H; injection H as <- <-; cbn [fst snd] in *; norm_all.
  all: cbn [Item.quantity Item.set_quantity] in *.
  all: match goal with E : (_ <=? 0) = _ |- _ => rewrite E end; reflexivity.
Qed.

End MoveFacts.

(** ** Arrays searched by a predicate *)
Section ListFacts.
Context {A : Type}.
Implicit Types (f g : A -> bool) (l : list A).

Lemma findIndex_ge_m1 f l : -1 <= findIndex f l.
Proof.
  induction l as [|x l IH]; simpl; [lia|].
  destruct (f x); [lia|]. destruct (findIndex f l <? 0) eqn:E; [lia|].
  apply Z.ltb_ge in E. lia.
Qed.

Lemma findIndex_none f l : (findIndex f l <=? -1) = true <-> JS.find f l = None.
Proof.
  induction l as [|x l IH]; simpl; [intuition|].
  destruct (f x); [split; [intros H; apply Z.leb_le in H; lia | discriminate]|].
  pose proof (findIndex_ge_m1 f l).
  destruct (findIndex f l <? 0) eqn:E.
  - apply Z.ltb_lt in E. rewrite <- IH. split; intros _; apply Z.leb_le; lia.
  - apply Z.ltb_ge in E. rewrite <- IH. split; intros H'; apply Z.leb_le in H'; lia.
Qed.




End ListFacts.

(** ** Split *)

Section SplitFacts.

Context {PF : PlayerFuncs}.




End SplitFacts.

(** ** The reference collaborators *)

Section ReferenceFacts.

Variable capacity : nat.


(** The reference distance compares with the radius as the distance
    itself does: it is at least 10 exactly when the squared distance of
    the two positions is at least 100. *)
Lemma reference_distance_radius (a b : Vector3.t) :
  let dx := (Vector3.x a - Vector3.x b)%Q in
  let dy := (Vector3.y a - Vector3.y b)%Q in
  let dz := (Vector3.z a - Vector3.z b)%Q in
  Qle_bool 10 (Reference.distance2d a b) = true
  <-> (100 <= dx * dx + dy * dy + dz * dz)%Q.
Proof.
  intros dx dy dz. unfold Reference.distance2d. fold dx dy dz.
  set (s := (dx * dx + dy * dy + dz * dz)%Q).
  rewrite Qle_bool_iff. unfold Qle. cbn [Qnum Qden].
  destruct s as [n d]. cbn [Qnum Qden].
  rewrite Z.mul_1_r.
  split.
  - intros H.
    destruct (Z.lt_ge_cases (n * Z.pos d) 0) as [Hneg|Hnn].
    + rewrite Z.sqrt_neg in H by assumption. lia.
    + assert (H2 : 10 * Z.pos d * (10 * Z.pos d) <= n * Z.pos d).
      { apply Z.sqrt_le_square; lia. }
      nia.
  - intros H.
    apply Z.sqrt_le_square; nia.
Qed.

(** Two positions 9.5 apart are 9.5 apart. *)
Example reference_distance_nine_and_a_half :
  (Reference.distance2d origin (Vector3.mk (19 # 2) 0 0) == 19 # 2)%Q.
Proof. reflexivity. Qed.

End ReferenceFacts.

(** ** The controller on concrete states *)

(** C1 (failing input). Bread in Personal Storage slot 0 is moved onto
    the knife in Toolbar slot 1 while a rule rejects every transition
    from the Toolbar into Personal Storage.  The swap is performed: both
    verifications run the rule of the source-to-destination direction,
    first on the bread, then on the knife, and the rejecting rule of the
    opposite direction is never invoked. *)
Theorem swap_never_consults_reverse_rule :
  let r := processItemMovement (PF := ref) "i-0" "t-1" None one_way_rules in
  fst r = Normal tt
  /\ map call_rule (calls (snd r))
     = [FROM_INVENTORY_TO_TOOLBAR; FROM_INVENTORY_TO_TOOLBAR]
  /\ map call_item (calls (snd r)) = [Some bread; Some knife]
  /\ Player.data (player (snd r))
     = Some (PlayerData.mk [Some (Item.set_slot knife 0)] []
               [Some (Item.set_slot bread 1)] 0).
Proof. vm_compute. repeat split. Qed.

(** The transition kinds the pickup selects for the four rows of the
    adapter table (Personal Storage, Toolbar, Equipped, Ground): none for
    the Equipped row. *)
Lemma pickupDataType_rows {PF : PlayerFuncs} :
  map pickupDataType DataHelpers
  = [Some FROM_GROUND_TO_INVENTORY; Some FROM_GROUND_TO_TOOLBAR; None;
     Some FROM_GROUND_TO_EQUIPMENT].
Proof. reflexivity. Qed.

(** C4 (failing input). A helmet lies next to the actor and a rule
    rejects every transition from the ground into the equipped slots.
    The pickup into equipment slot 0 goes through: the helmet is equipped,
    the Ground Store is empty and no rule was invoked. *)
Theorem pickup_into_equipment_skips_rule :
  let r := processItemMovement (PF := ref) "g-0" "e-0" (Some "h1") helmet_on_ground in
  fst r = Normal tt
  /\ calls (snd r) = []
  /\ GROUND_ITEMS (snd r) = []
  /\ Player.data (player (snd r)) = Some (PlayerData.mk [] [Some helmet] [] 0).
Proof. vm_compute. repeat split. Qed.

(** The same helmet is kept on the ground by a rejecting rule for the
    transition into Personal Storage. *)
Example pickup_into_inventory_consults_rule :
  let w := register FROM_GROUND_TO_INVENTORY deny helmet_on_ground in
  let r := processItemMovement (PF := ref) "g-0" "i-0" (Some "h1") w in
  map call_rule (calls (snd r)) = [FROM_GROUND_TO_INVENTORY]
  /\ GROUND_ITEMS (snd r) = GROUND_ITEMS w
  /\ player (snd r) = player w.
Proof. vm_compute. repeat split. Qed.

(** C8 (failing input). The last potion sits in Toolbar slot 1 and bread
    in Personal Storage slot 1.  Using the potion leaves it in the
    Toolbar with quantity 1 and removes the bread: the decrement is
    applied to Personal Storage, not to the container the item was read
    from. *)
Theorem use_from_toolbar_misses_the_stack :
  let r := processUse (PF := ref) "t-1" potion_in_toolbar in
  fst r = Normal tt
  /\ Player.data (player (snd r)) = Some (PlayerData.mk [] [] [Some (potion 1)] 0)
  /\ effects (snd r)
     = [save_field INVENTORY_TYPE.INVENTORY (Some []);
        sync_inventory (actor [] [] [Some (potion 1)])].
Proof. vm_compute. repeat split. Qed.

(** From Personal Storage the use does what is expected: the last potion
    is removed, one of two leaves one in the same slot. *)
Example use_last_potion :
  Player.data (player (snd (processUse (PF := ref) "i-1" (potion_in_inventory 1))))
  = Some (PlayerData.mk [] [] [] 0).
Proof. reflexivity. Qed.

Example use_one_of_two_potions :
  Player.data (player (snd (processUse (PF := ref) "i-1" (potion_in_inventory 2))))
  = Some (PlayerData.mk [Some (potion 1)] [] [] 0).
Proof. reflexivity. Qed.



(** A move request of an invalid actor returns at once, and one with an
    unknown slot prefix ends in a TypeError: neither synchronizes. *)
Example move_by_invalid_actor :
  let w := world0 (Player.mk false false origin 0 0 None) [] in
  processItemMovement (PF := ref) "i-0" "t-1" None w = (Normal tt, w).
Proof. reflexivity. Qed.

Example move_from_unknown_prefix :
  let w := world0 bread_and_knife [] in
  processItemMovement (PF := ref) "x-0" "t-1" None w = (TypeError, w).
Proof. reflexivity. Qed.

(** Splitting ten by four leaves six and puts four into the first free
    slot; splitting by ten or eleven is rejected. *)
Example split_10_by_4 :
  Player.data (player (snd (processSplit (PF := ref) "i-0" (Num 4)
                              (world0 bread_and_knife []))))
  = Some (PlayerData.mk
            [Some (Item.set_quantity bread 6);
             Some (Item.set_slot (Item.set_quantity bread 4) 1)]
            [] [Some knife] 0).
Proof. reflexivity. Qed.

Example split_10_by_10_or_11 :
  let w := world0 bread_and_knife [] in
  processSplit (PF := ref) "i-0" (Num 10) w = (Normal tt, did w [sync_inventory (player w)])
  /\ processSplit (PF := ref) "i-0" (Num 11) w = (Normal tt, did w [sync_inventory (player w)]).
Proof. split; reflexivity. Qed.

(** ** Instances of the statements that carry assumptions *)

(** Three registered rules of which the second fails: the run stops
    after two invocations. *)
Lemma verifyRules_in_order_short_circuit_witness :
  ITEM_RULES three_rules !! FROM_INVENTORY_TO_TOOLBAR = Some [allow; deny; allow]
  /\ verifyRules FROM_INVENTORY_TO_TOOLBAR (Some bread) (Num 0) (Num 0) three_rules
     = (Normal false,
        logged three_rules
          (invocations ([allow] ++ [deny]) 0 FROM_INVENTORY_TO_TOOLBAR
             (Some bread) (Num 0) (Num 0))).
Proof.
  assert (H : ITEM_RULES three_rules !! FROM_INVENTORY_TO_TOOLBAR
              = Some [allow; deny; allow]) by reflexivity.
  split; [exact H|].
  exact (proj1 (proj2 (verifyRules_in_order_short_circuit three_rules
                         FROM_INVENTORY_TO_TOOLBAR [allow; deny; allow]
                         (Some bread) (Num 0) (Num 0) H))
           [allow] deny [allow] eq_refl eq_refl eq_refl).
Defined.

(** A crate exactly ten units away is out of range. *)
Lemma pickup_out_of_range_rejected_witness :
  let w := crate_at (Vector3.mk 6 8 0) in
  (10 <= distance2d (PlayerFuncs := ref) (Player.pos (player w)) (Vector3.mk 6 8 0))%Q
  /\ handleProcessPickup (PF := ref) (Some "c1") w = (Normal tt, did w [sync_inventory (player w)]).
Proof.
  intros w.
  assert (H : (10 <= distance2d (PlayerFuncs := ref) (Player.pos (player w))
                       (Vector3.mk 6 8 0))%Q)
    by (apply Qle_bool_imp_le; reflexivity).
  split; [exact H|].
  exact (proj1 (proj2 (pickup_out_of_range_rejected (PF := ref) w "c1"
                         (DroppedItem.mk 0 crate (Vector3.mk 6 8 0) 0)
                         eq_refl H))).
Defined.

(** Dropping the medkit removes it, saves Personal Storage and leaves
    the ground empty. *)
Lemma destroy_on_drop_leaves_no_ground_record_witness :
  let w := medkit_in_inventory in
  handleDropGround (PF := ref) "i-2" w
  = (Normal tt,
     mkWorld (actor [] [] []) [] (ITEM_RULES w) []
       [save_field INVENTORY_TYPE.INVENTORY (Some []);
        sync_inventory (actor [] [] []);
        emit_sound2D "item_drop_1";
        emit_animation "random@mugging4" "pickup_low" 33 1200;
        emit_message "medkit was destroyed on drop."]).
Proof.
  intros w.
  exact (proj2 (destroy_on_drop_leaves_no_ground_record (PF := ref) w "i-2"
                  (CategoryData.mk SLOT_TYPE.INVENTORY INVENTORY_TYPE.INVENTORY
                     (Some (isInventorySlotFree (PlayerFuncs := ref)))
                     (Some (getInventoryItem (PlayerFuncs := ref)))
                     (Some (inventoryRemove (PlayerFuncs := ref)))
                     (Some (inventoryAdd (PlayerFuncs := ref))))
                  (getInventoryItem (PlayerFuncs := ref)) medkit
                  eq_refl eq_refl eq_refl eq_refl)
           w (inventoryRemove (PlayerFuncs := ref)) (actor [] [] [])
           (PlayerData.mk [] [] [] 0)
           eq_refl eq_refl eq_refl eq_refl eq_refl eq_refl eq_refl).
Defined.




(** ** More on the rule registry *)

Section RegistryExtras.

Context {PF : PlayerFuncs}.

Lemma ITEM_RULES_init_total : rulesTotal ITEM_RULES_init.
Proof. intros []; vm_compute; eauto. Qed.

(** The verdict of the loop is the conjunction of the callbacks' results. *)
Lemma verifyLoop_verdict (cbs : list Callback) i rule item s e w :
  fst (verifyLoop cbs i rule item s e w)
  = Normal (forallb (fun cb => cb item s e rule) cbs).
Proof.
  revert i w; induction cbs as [|cb cbs IH]; intros i w; simpl; [reflexivity|].
  unfold bind, invoke. destruct (cb item s e rule); simpl; [apply IH | reflexivity].
Qed.

Lemma verifyRules_verdict rule item s e w (cbs : list Callback) :
  ITEM_RULES w !! rule = Some cbs ->
  fst (verifyRules rule item s e w)
  = Normal (forallb (fun cb => cb item s e rule) cbs).
Proof.
  intros H. unfold verifyRules. rewrite H.
  destruct cbs as [|cb cbs]; [reflexivity|].
  change (length (cb :: cbs) <=? 0)%nat with false.
  apply verifyLoop_verdict.
Qed.

(** Once a callback has failed, what follows it in the list is not
    consulted. *)
Lemma verifyLoop_stops (cbs extra : list Callback) i rule item s e w w' :
  forallb (fun cb => cb item s e rule) cbs = false ->
  calls w' = calls w ->
  calls (snd (verifyLoop (cbs ++ extra) i rule item s e w'))
  = calls (snd (verifyLoop cbs i rule item s e w)).
Proof.
  revert i w w'; induction cbs as [|cb cbs IH]; intros i w w' Hfail Hcalls;
    [discriminate Hfail|].
  simpl in *. unfold bind, invoke.
  destruct (cb item s e rule); simpl.
  - apply IH; [exact Hfail|]. simpl. now rewrite Hcalls.
  - now rewrite Hcalls.
Qed.

(** X1. Every transition kind stays registered: the table the module
    starts with has a list for each of the twelve kinds, [addRule] keeps
    it so and then always succeeds, and on such a table a verification
    never raises. *)
Theorem rule_table_stays_total :
  rulesTotal ITEM_RULES_init
  /\ (forall w rule cb,
        rulesTotal (ITEM_RULES w) ->
        fst (addRule rule cb w) = Normal true
        /\ rulesTotal (ITEM_RULES (snd (addRule rule cb w))))
  /\ (forall w rule item s e,
        rulesTotal (ITEM_RULES w) ->
        exists b, fst (verifyRules rule item s e w) = Normal b).
Proof.
  split; [exact ITEM_RULES_init_total|]. split.
  - intros w rule cb Htotal. unfold addRule.
    destruct (Htotal rule) as [cbs Hcbs]. rewrite Hcbs. simpl.
    split; [reflexivity|]. intros rule'.
    destruct (decide (rule' = rule)) as [->|Hne].
    + rewrite lookup_insert_eq. eauto.
    + rewrite lookup_insert_ne by congruence. apply Htotal.
  - intros w rule item s e Htotal.
    destruct (Htotal rule) as [cbs Hcbs].
    eexists. apply (verifyRules_verdict _ _ _ _ _ _ Hcbs).
Qed.

(** X2. Registering a rule can only restrict.  After [addRule] the
    verdict for that transition kind is the old verdict and the new
    callback's result, the new callback being consulted last; the
    verdicts of all other kinds are what they were. *)
Theorem addRule_only_restricts
    (w : World) (rule : INVENTORY_RULES) (cb : Callback) (cbs : list Callback)
    (item : option Item.t) (s e : number) :
  ITEM_RULES w !! rule = Some cbs ->
  let w' := snd (addRule rule cb w) in
  fst (verifyRules rule item s e w)
  = Normal (forallb (fun c => c item s e rule) cbs)
  /\ fst (verifyRules rule item s e w')
     = Normal (forallb (fun c => c item s e rule) cbs && cb item s e rule)
  /\ (forallb (fun c => c item s e rule) cbs = false ->
      calls (snd (verifyRules rule item s e w'))
      = calls (snd (verifyRules rule item s e w)))
  /\ (forall rule', rule' <> rule ->
        fst (verifyRules rule' item s e w') = fst (verifyRules rule' item s e w)).
Proof.
  intros Hreg w'.
  assert (Hreg' : ITEM_RULES w' !! rule = Some (cbs ++ [cb])).
  { subst w'. unfold addRule. rewrite Hreg. simpl. apply lookup_insert_eq. }
  split; [apply verifyRules_verdict; exact Hreg|]. split.
  { rewrite (verifyRules_verdict _ _ _ _ _ _ Hreg').
    rewrite forallb_app. simpl. now rewrite andb_true_r. }
  split.
  - intros Hfail. unfold verifyRules. rewrite Hreg, Hreg'.
    destruct cbs as [|c cbs']; [discriminate Hfail|].
    change (length (c :: cbs') <=? 0)%nat with false.
    change (length ((c :: cbs') ++ [cb]) <=? 0)%nat with false.
    cbv iota. apply verifyLoop_stops; [exact Hfail|].
    subst w'. unfold addRule. now rewrite Hreg.
  - intros rule' Hne.
    assert (Hsame : ITEM_RULES w' !! rule' = ITEM_RULES w !! rule').
    { subst w'. unfold addRule. rewrite Hreg. simpl.
      now rewrite lookup_insert_ne by congruence. }
    unfold verifyRules. rewrite Hsame.
    destruct (ITEM_RULES w !! rule') as [cbs'|]; [|reflexivity].
    destruct (length cbs' <=? 0)%nat; [reflexivity|].
    now rewrite !verifyLoop_verdict.
Qed.

End RegistryExtras.

Section SpliceFacts.

Context {A : Type}.

(** Removing the element [findIndex] found removes the first element
    that satisfies the predicate and nothing else. *)
Lemma splice_first_match (f : A -> bool) (l : list A) :
  (JS.find f l = None /\ snd (splice1 l (findIndex f l)) = l)
  \/ exists pre x post,
       l = pre ++ x :: post
       /\ f x = true
       /\ existsb f pre = false
       /\ splice1 l (findIndex f l) = ([x], pre ++ post).
Proof.
  induction l as [|y l IH]; [left; split; reflexivity|].
  simpl. destruct (f y) eqn:Hy.
  - right. exists [], y, l. repeat split; auto.
  - pose proof (findIndex_ge_m1 f l) as Hge.
    destruct IH as [[Hnone Hsame] | (pre & x & post & -> & Hx & Hpre & Hsp)].
    + left. split; [exact Hnone|].
      apply findIndex_none in Hnone. apply Z.leb_le in Hnone.
      destruct (findIndex f l <? 0) eqn:E; [reflexivity|].
      apply Z.ltb_ge in E. lia.
    + right. exists (y :: pre), x, post. simpl. rewrite Hy.
      repeat split; auto.
      destruct (findIndex f (pre ++ x :: post) <? 0) eqn:E.
      { unfold splice1, at_ in Hsp. rewrite E in Hsp. discriminate Hsp. }
      unfold splice1, at_ in Hsp |- *. rewrite E in Hsp.
      apply Z.ltb_ge in E.
      destruct (findIndex f (pre ++ x :: post) + 1 <? 0) eqn:E';
        [apply Z.ltb_lt in E'; lia|].
      replace (Z.to_nat (findIndex f (pre ++ x :: post) + 1))
        with (S (Z.to_nat (findIndex f (pre ++ x :: post)))) by lia.
      simpl.
      destruct ((pre ++ x :: post) !! Z.to_nat (findIndex f (pre ++ x :: post)));
        [|discriminate Hsp].
      injection Hsp as -> Hrest. now rewrite Hrest.
Qed.

End SpliceFacts.


(** ** More on the transfer orchestrator *)

Section OrchestratorExtras.

Context {PF : PlayerFuncs}.

(** X3. The transition kinds of two rows of the adapter table mirror
    each other: for two different owned containers [getInventoryRule]
    returns a pair whose members differ and are exchanged when the rows
    are; it returns null exactly when the rows are of the same kind or
    one of them is the Ground row. *)
Theorem getInventoryRule_mirrors (a b : CategoryData.t) :
  In a DataHelpers -> In b DataHelpers ->
  (getInventoryRule a b = None
   <-> (CategoryData.name a = CategoryData.name b
        \/ CategoryData.name a = INVENTORY_TYPE.GROUND
        \/ CategoryData.name b = INVENTORY_TYPE.GROUND))
  /\ (forall r,
        getInventoryRule a b = Some r ->
        getInventoryRule b a = Some (mkRulePair (end_ r) (selected r))
        /\ selected r <> end_ r).
Proof.
  intros Ha Hb. simpl in Ha, Hb.
  destruct Ha as [<-|[<-|[<-|[<-|[]]]]]; destruct Hb as [<-|[<-|[<-|[<-|[]]]]].
  all: split; [split|]; vm_compute.
  all: try (intros H; discriminate H).
  all: try (intros _; auto; fail).
  all: try (intros [H|[H|H]]; try discriminate H; reflexivity).
  all: intros r H; try discriminate H; injection H as <-.
  all: split; [reflexivity | discriminate].
Qed.

(** Two rows of the adapter table with the same prefix are one row. *)
Lemma rows_by_prefix (a b : CategoryData.t) :
  In a DataHelpers -> In b DataHelpers ->
  CategoryData.abbrv a = CategoryData.abbrv b -> a = b.
Proof.
  intros Ha Hb. simpl in Ha, Hb.
  destruct Ha as [<-|[<-|[<-|[<-|[]]]]]; destruct Hb as [<-|[<-|[<-|[<-|[]]]]];
    simpl; intros H; try discriminate H; reflexivity.
Qed.

(** X4. A move inside one container never runs rules: when both slot
    identifiers resolve to the same row of the adapter table, no rule
    callback is invoked, whatever is registered. *)
Theorem move_within_one_container_skips_rules
    (w : World) (selectedSlot endSlot : string) (hash : option string)
    (selectData endData : CategoryData.t) :
  findData selectedSlot = Some selectData ->
  findData endSlot = Some endData ->
  CategoryData.abbrv selectData = CategoryData.abbrv endData ->
  calls (snd (processItemMovement selectedSlot endSlot hash w)) = calls w.
Proof.
  intros Hsel Hend Habbrv.
  assert (Heq : selectData = endData).
  { apply rows_by_prefix; eauto using findData_row. }
  subst endData. clear Habbrv.
  assert (Hrefl : String.eqb (CategoryData.abbrv selectData)
                    (CategoryData.abbrv selectData) = true)
    by apply String.eqb_refl.
  destruct (processItemMovement selectedSlot endSlot hash w) as [c w'] eqn:H.
  unfold processItemMovement, handleDropGround in H. unfold_M.
  repeat branch H; injection H as <- <-; cbn [fst snd]; norm_all;
    try reflexivity; congruence.
Qed.

(** X5. Only [addRule] writes the rule table, and use and split stay
    away from the ground and from the rules: no request changes
    [ITEM_RULES]; [processUse] and [processSplit] neither change
    [GROUND_ITEMS] nor invoke a rule callback. *)
Theorem requests_leave_the_rule_table (w : World) :
  (forall selectedSlot endSlot hash,
      ITEM_RULES (snd (processItemMovement selectedSlot endSlot hash w)) = ITEM_RULES w)
  /\ (forall hash,
        ITEM_RULES (snd (handleProcessPickup hash w)) = ITEM_RULES w)
  /\ (forall selectedSlot,
        let w' := snd (processUse selectedSlot w) in
        ITEM_RULES w' = ITEM_RULES w
        /\ GROUND_ITEMS w' = GROUND_ITEMS w
        /\ calls w' = calls w)
  /\ (forall selectedSlot amount,
        let w' := snd (processSplit selectedSlot amount w) in
        ITEM_RULES w' = ITEM_RULES w
        /\ GROUND_ITEMS w' = GROUND_ITEMS w
        /\ calls w' = calls w).
Proof.
  split; [|split; [|split]].
  - intros selectedSlot endSlot hash.
    destruct (processItemMovement selectedSlot endSlot hash w) as [c w'] eqn:H.
    unfold processItemMovement, handleDropGround, handlePickupGround in H.
    unfold_M.
    repeat branch H; injection H as <- <-; reflexivity.
  - intros hash.
    destruct (handleProcessPickup hash w) as [c w'] eqn:H.
    unfold handleProcessPickup, handlePickupGround in H. unfold_M.
    repeat branch H; injection H as <- <-; reflexivity.
  - intros selectedSlot w'. subst w'.
    destruct (processUse selectedSlot w) as [c w'] eqn:H.
    unfold processUse in H. unfold_M.
    repeat branch H; injection H as <- <-; repeat split; reflexivity.
  - intros selectedSlot amount w'. subst w'.
    destruct (processSplit selectedSlot amount w) as [c w'] eqn:H.
    unfold processSplit in H. unfold_M.
    repeat branch H; injection H as <- <-; repeat split; reflexivity.
Qed.

(** What a request can do to the Ground Store, in terms of the array
    operations the controller uses. *)
Lemma ground_store_steps (w : World) :
  (forall selectedSlot endSlot hash,
      let w' := snd (processItemMovement selectedSlot endSlot hash w) in
      GROUND_ITEMS w' = GROUND_ITEMS w
      \/ (exists d,
            GROUND_ITEMS w' = GROUND_ITEMS w ++ [d]
            /\ is_Some (Item.hash (DroppedItem.item d))
            /\ DroppedItem.gridSpace d = Player.gridSpace (player w')
            /\ DroppedItem.dimension d = Player.dimension (player w'))
      \/ (exists h,
            hash = Some h
            /\ GROUND_ITEMS w'
               = snd (splice1 (GROUND_ITEMS w)
                        (findIndex (hasHash h) (GROUND_ITEMS w)))))
  /\ (forall h,
        let w' := snd (handleProcessPickup (Some h) w) in
        GROUND_ITEMS w' = GROUND_ITEMS w
        \/ GROUND_ITEMS w'
           = snd (splice1 (GROUND_ITEMS w) (findIndex (hasHash h) (GROUND_ITEMS w)))).
Proof.
  split.
  - intros selectedSlot endSlot hash w'. subst w'.
    destruct (processItemMovement selectedSlot endSlot hash w) as [c w'] eqn:H.
    unfold processItemMovement, handleDropGround, handlePickupGround in H.
    unfold_M.
    repeat branch H; injection H as <- <-; cbn [fst snd]; norm_all.
    all: try (left; reflexivity).
    all: try (right; left; eexists; repeat split; try reflexivity;
              simpl; eauto; fail).
    all: right; right; eexists; split; [reflexivity|].
    all: match goal with E : splice1 _ _ = _ |- _ => rewrite E; reflexivity end.
  - intros h w'. subst w'.
    destruct (handleProcessPickup (Some h) w) as [c w'] eqn:H.
    unfold handleProcessPickup, handlePickupGround in H. unfold_M.
    repeat branch H; injection H as <- <-; cbn [fst snd]; norm_all.
    all: try (left; reflexivity).
    all: right; reflexivity.
Qed.


(** X6. The Ground Store changes by one entry at a time.  After a move
    request it is what it was, or it has one more entry at its end, which
    carries a token and the band and dimension of the actor, or it has
    lost exactly one entry: the first one that carries the token of the
    request.  After a pickup request without a slot it is what it was or
    has lost that entry. *)
Theorem ground_store_changes_by_one_entry (w : World) :
  (forall selectedSlot endSlot hash,
      let w' := snd (processItemMovement selectedSlot endSlot hash w) in
      GROUND_ITEMS w' = GROUND_ITEMS w
      \/ (exists d,
            GROUND_ITEMS w' = GROUND_ITEMS w ++ [d]
            /\ is_Some (Item.hash (DroppedItem.item d))
            /\ DroppedItem.gridSpace d = Player.gridSpace (player w')
            /\ DroppedItem.dimension d = Player.dimension (player w'))
      \/ (exists h pre d post,
            hash = Some h
            /\ GROUND_ITEMS w = pre ++ d :: post
            /\ hasHash h d = true
            /\ existsb (hasHash h) pre = false
            /\ GROUND_ITEMS w' = pre ++ post))
  /\ (forall h,
        let w' := snd (handleProcessPickup (Some h) w) in
        GROUND_ITEMS w' = GROUND_ITEMS w
        \/ exists pre d post,
             GROUND_ITEMS w = pre ++ d :: post
             /\ hasHash h d = true
             /\ existsb (hasHash h) pre = false
             /\ GROUND_ITEMS w' = pre ++ post).
Proof.
  destruct (ground_store_steps w) as [Hmove Hpickup]. split.
  - intros selectedSlot endSlot hash w'. subst w'.
    destruct (Hmove selectedSlot endSlot hash) as [H | [H | (h & -> & H)]];
      [left; exact H | right; left; exact H |].
    destruct (splice_first_match (hasHash h) (GROUND_ITEMS w))
      as [[_ Hsame] | (pre & d & post & Hsplit & Hd & Hpre & Hsp)].
    + left. now rewrite H.
    + right. right. exists h, pre, d, post.
      rewrite H, Hsp. auto.
  - intros h w'. subst w'.
    destruct (Hpickup h) as [H | H]; [left; exact H|].
    destruct (splice_first_match (hasHash h) (GROUND_ITEMS w))
      as [[_ Hsame] | (pre & d & post & Hsplit & Hd & Hpre & Hsp)].
    + left. now rewrite H.
    + right. exists pre, d, post. rewrite H, Hsp. auto.
Qed.

End OrchestratorExtras.

Section DropPickupExtras.

Context {PF : PlayerFuncs}.

Lemma findIndex_snoc_fresh {A} (f : A -> bool) (l : list A) (x : A) :
  existsb f l = false -> f x = true ->
  findIndex f (l ++ [x]) = Z.of_nat (length l).
Proof.
  intros Hl Hx. induction l as [|y l IH]; simpl in *.
  - now rewrite Hx.
  - apply orb_false_iff in Hl as [Hy Hl]. rewrite Hy, (IH Hl).
    destruct (Z.ltb_spec (Z.of_nat (length l)) 0); lia.
Qed.

Lemma splice1_last {A} (l : list A) (x : A) :
  at_ (l ++ [x]) (Z.of_nat (length l)) = Some x
  /\ splice1 (l ++ [x]) (Z.of_nat (length l)) = ([x], l).
Proof.
  assert (H : at_ (l ++ [x]) (Z.of_nat (length l)) = Some x).
  { unfold at_. destruct (Z.ltb_spec (Z.of_nat (length l)) 0); [lia|].
    rewrite Nat2Z.id. now rewrite list_lookup_middle. }
  split; [exact H|]. unfold splice1. rewrite H, Nat2Z.id.
  rewrite take_app_length. rewrite drop_ge by (rewrite length_app; simpl; lia).
  now rewrite app_nil_r.
Qed.


(** X8. What a drop changes in the list of dropped items of a grid band:
    the list of every band and dimension is what it was, except that the
    list of the actor's own band and dimension may have gained one entry
    at its end, which is then the entry the Ground Store gained. *)
Theorem drop_shows_in_own_band_only (w : World) (selectedSlot : string)
    (dimension gridSpace : Z) :
  let w' := snd (handleDropGround selectedSlot w) in
  let before := List.filter
                  (fun item => (DroppedItem.gridSpace item =? gridSpace)
                               && (DroppedItem.dimension item =? dimension))
                  (GROUND_ITEMS w) in
  getDroppedItemsByGridSpace dimension gridSpace w' = (Normal before, w')
  \/ exists d,
       getDroppedItemsByGridSpace dimension gridSpace w' = (Normal (before ++ [d]), w')
       /\ GROUND_ITEMS w' = GROUND_ITEMS w ++ [d]
       /\ gridSpace = Player.gridSpace (player w')
       /\ dimension = Player.dimension (player w').
Proof.
  intros w' before. subst w' before.
  destruct (handleDropGround selectedSlot w) as [c w'] eqn:H.
  unfold handleDropGround in H. unfold_M.
  unfold getDroppedItemsByGridSpace.
  repeat branch H; injection H as <- <-;
    cbn [fst snd GROUND_ITEMS player];
    try (left; reflexivity).
  all: rewrite List.filter_app; cbn [List.filter DroppedItem.gridSpace DroppedItem.dimension].
  all: match goal with
       | |- context [(?a =? ?g) && (?b =? ?d)] =>
           destruct (Z.eqb_spec a g) as [<-|];
           [destruct (Z.eqb_spec b d) as [<-|]|]; cbn [andb]
       end.
  all: try (left; rewrite app_nil_r; reflexivity).
  all: right; eexists; repeat split; reflexivity.
Qed.

(** X9. Drop and pickup round trip: when the last record of the Ground
    Store carries a token no earlier record carries (as an accepted drop
    leaves it), a pickup request with that token either leaves the store
    and the actor alone, or takes exactly that record off the store and
    hands the stored item, unchanged, to the writer of the destination
    container. *)
Theorem pickup_takes_the_dropped_record
    (w : World) (G : list DroppedItem.t) (d : DroppedItem.t) (h : string)
    (endData : CategoryData.t) (endSlotIndex : number) :
  GROUND_ITEMS w = G ++ [d] ->
  Item.hash (DroppedItem.item d) = Some h ->
  existsb (hasHash h) G = false ->
  let r := handlePickupGround endData endSlotIndex (Some h) w in
  (GROUND_ITEMS (snd r) = G ++ [d] /\ player (snd r) = player w)
  \/ (GROUND_ITEMS (snd r) = G
      /\ match CategoryData.addItem endData with
         | Some addItem =>
             player (snd r)
             = snd (addItem (player w) (DroppedItem.item d) endSlotIndex)
         | None => fst r = TypeError /\ player (snd r) = player w
         end).
Proof.
  intros HG Hh Hfresh r. subst r.
  assert (Hd : hasHash h d = true).
  { unfold hasHash. rewrite Hh. apply String.eqb_refl. }
  pose proof (findIndex_snoc_fresh _ _ _ Hfresh Hd) as Hidx.
  destruct (splice1_last G d) as [Hat Hsp].
  rewrite <- Hidx, <- HG in Hat, Hsp.
  assert (Hfound : (findIndex (hasHash h) (GROUND_ITEMS w) <=? -1) = false).
  { rewrite HG, Hidx. apply Z.leb_gt. lia. }
  destruct (handlePickupGround endData endSlotIndex (Some h) w) as [c w'] eqn:H.
  unfold handlePickupGround in H. unfold_M.
  repeat branch H; injection H as <- <-; cbn [fst snd]; norm_all;
    try (left; split; [assumption|reflexivity]).
  all: right; split; [reflexivity|].
  all: try match goal with E : _ = (_, ?p) |- _ = snd _ => rewrite E; reflexivity end.
  all: try (split; reflexivity).
  all: match goal with E : (length _ <=? _)%nat = true |- _ => discriminate E end.
Qed.

(** X10. The commit of a pickup is not undone.  When every check of a
    pickup has passed (actor on foot, destination free, record found
    within reach, item placeable, rules passed, fitting equipment), the
    record leaves the Ground Store before the destination container is
    written.  If the writer reports success the container is saved, the
    view synchronized and both streamers told to retract the token; if it
    reports failure the record is gone all the same, nothing is saved,
    neither streamer is told, and the view is only synchronized. *)
Theorem pickup_commit_is_not_undone
    (w w1 : World) (endData : CategoryData.t) (endSlotIndex : number) (h : string)
    (emptyCheck : Player.t -> number -> bool) (d : DroppedItem.t)
    (addItem : Player.t -> Item.t -> number -> bool * Player.t)
    (b : bool) (p' : Player.t) (d' : PlayerData.t) :
  Player.vehicle (player w) = false ->
  CategoryData.emptyCheck endData = Some emptyCheck ->
  emptyCheck (player w) endSlotIndex = true ->
  truthy h = true ->
  at_ (GROUND_ITEMS w) (findIndex (hasHash h) (GROUND_ITEMS w)) = Some d ->
  tooFar (player w) d = false ->
  allItemRulesValid (DroppedItem.item d) (CategoryData.name endData)
    (Some endSlotIndex) = true ->
  verifyIfSet (pickupDataType endData) (Some (DroppedItem.item d))
    (Num (DroppedItem.gridSpace d)) (Num (-1)) w = (Normal true, w1) ->
  (isFlagEnabled (Item.behavior (DroppedItem.item d)) IS_EQUIPMENT = true ->
   CategoryData.name endData = INVENTORY_TYPE.EQUIPMENT ->
   exists d0,
     Player.data (player w) = Some d0
     /\ Item.sex (Item.data (DroppedItem.item d))
        = Some (PlayerData.appearance_sex d0)) ->
  CategoryData.addItem endData = Some addItem ->
  addItem (player w) (DroppedItem.item d) endSlotIndex = (b, p') ->
  (b = true -> Player.data p' = Some d') ->
  handlePickupGround endData endSlotIndex (Some h) w
  = (Normal tt,
     mkWorld p'
       (snd (splice1 (GROUND_ITEMS w) (findIndex (hasHash h) (GROUND_ITEMS w))))
       (ITEM_RULES w) (calls w1)
       (effects w
        ++ (if b
            then [save_field (CategoryData.name endData)
                    (PlayerData.field d' (CategoryData.name endData));
                  sync_inventory p';
                  emit_sound2D "item_shuffle_1";
                  emit_animation "random@mugging4" "pickup_low" 33 1200;
                  ServerObjectController_remove h;
                  ServerItemController_remove h]
            else [sync_inventory p']))).
Proof.
  intros Hfoot Hec Hfree Hh Hat Hnear Hvalid Hrules Hequip Hadd Hres Hdata.
  destruct (verifyIfSet_log (pickupDataType endData) (Some (DroppedItem.item d))
              (Num (DroppedItem.gridSpace d)) (Num (-1)) w) as (c & cs & Hv & _ & _).
  rewrite Hv in Hrules. injection Hrules as -> <-.
  assert (Hidx : (findIndex (hasHash h) (GROUND_ITEMS w) <=? -1) = false).
  { unfold at_ in Hat.
    destruct (findIndex (hasHash h) (GROUND_ITEMS w) <? 0) eqn:E; [discriminate|].
    apply Z.ltb_ge in E. apply Z.leb_gt. lia. }
  assert (Hsp : splice1 (GROUND_ITEMS w) (findIndex (hasHash h) (GROUND_ITEMS w))
                = ([d], snd (splice1 (GROUND_ITEMS w)
                               (findIndex (hasHash h) (GROUND_ITEMS w))))).
  { unfold splice1. rewrite Hat. reflexivity. }
  destruct (handlePickupGround endData endSlotIndex (Some h) w) as [c' w'] eqn:H.
  unfold handlePickupGround in H. unfold_M.
  rewrite Hfoot, Hec in H. norm_in H. rewrite Hfree, Hh in H. norm_in H.
  rewrite Hidx, Hat in H. norm_in H. rewrite Hnear, Hvalid in H. norm_in H.
  rewrite Hv in H. norm_in H.
  destruct (isFlagEnabled (Item.behavior (DroppedItem.item d)) IS_EQUIPMENT) eqn:Heq;
    norm_in H;
    [destruct (INVENTORY_TYPE.eqb (CategoryData.name endData) INVENTORY_TYPE.EQUIPMENT)
       eqn:Hgo; norm_in H|].
  1: destruct (Hequip eq_refl (proj1 (INVENTORY_TYPE_eqb_eq _ _) Hgo))
       as (d0 & Hd0 & Hsex);
     rewrite Hd0 in H; norm_in H;
     rewrite (bool_decide_eq_true_2 _ Hsex) in H; norm_in H.
  all: rewrite Hsp in H; cbn [length Nat.leb] in H; norm_in H.
  all: rewrite Hadd in H; norm_in H; simpl in Hres; rewrite Hres in H; norm_in H.
  all: destruct b; norm_in H;
    [rewrite (Hdata eq_refl) in H; norm_in H; injection H as <- <-; simpl;
     repeat rewrite <- app_assoc; reflexivity
    |injection H as <- <-; reflexivity].
Qed.

End DropPickupExtras.

Section GroundExtras.

Context {PF : PlayerFuncs}.

(** The transition kinds the drop selects for the four rows of the
    adapter table (Personal Storage, Toolbar, Equipped, Ground). *)
Lemma dropDataType_rows :
  map dropDataType DataHelpers
  = [Some FROM_INVENTORY_TO_GROUND; Some FROM_TOOLBAR_TO_GROUND;
     Some FROM_EQUIPMENT_TO_GROUND; None].
Proof. reflexivity. Qed.

(** X11. A drop consults the rule of its own source container and no
    other: every callback invoked by a drop from Personal Storage, the
    Toolbar or the equipped slots is registered for the transition from
    that container to the ground.  A pickup request without a slot
    consults the ground-to-Personal-Storage rule only. *)
Theorem ground_transfers_consult_their_rule (w : World) :
  (forall selectedSlot selectData cs,
      findData selectedSlot = Some selectData ->
      calls (snd (handleDropGround selectedSlot w)) = calls w ++ cs ->
      Forall (fun c =>
                call_rule c
                = match CategoryData.name selectData with
                  | INVENTORY_TYPE.TOOLBAR => FROM_TOOLBAR_TO_GROUND
                  | INVENTORY_TYPE.EQUIPMENT => FROM_EQUIPMENT_TO_GROUND
                  | _ => FROM_INVENTORY_TO_GROUND
                  end) cs
      /\ (CategoryData.name selectData = INVENTORY_TYPE.GROUND -> cs = []))
  /\ (forall hash cs,
        calls (snd (handleProcessPickup hash w)) = calls w ++ cs ->
        Forall (fun c => call_rule c = FROM_GROUND_TO_INVENTORY) cs).
Proof.
  split.
  - intros selectedSlot selectData cs Hsel Hcalls.
    pose proof (findData_row _ _ Hsel) as Hrow. simpl in Hrow.
    destruct (handleDropGround selectedSlot w) as [c w'] eqn:H.
    unfold handleDropGround in H. unfold_M.
    destruct Hrow as [<-|[<-|[<-|[<-|[]]]]].
    all: repeat branch H; injection H as <- <-; cbn [fst snd] in *; norm_all.
    all: repeat rewrite <- app_assoc in Hcalls.
    all: try (apply app_same_head in Hcalls; subst cs; split; [constructor|reflexivity]).
    all: apply app_inv_head in Hcalls; subst cs.
    all: try discriminate.
    all: split; [|intros Hn; discriminate Hn].
    all: eapply Forall_impl; [eassumption|].
    all: cbv beta; intros ? Hr; cbn in Hr |- *; congruence.
  - intros hash cs Hcalls.
    destruct (handleProcessPickup hash w) as [c w'] eqn:H.
    unfold handleProcessPickup, handlePickupGround in H. unfold_M.
    rewrite pickup_row in H. simpl in H.
    repeat branch H; injection H as <- <-; cbn [fst snd] in *; norm_all.
    all: repeat rewrite <- app_assoc in Hcalls.
    all: try (apply app_same_head in Hcalls; subst cs; constructor).
    all: apply app_inv_head in Hcalls; subst cs.
    all: eapply Forall_impl; [eassumption|].
    all: cbv beta; intros ? Hr; cbn in Hr |- *; congruence.
Qed.

(** X12. A slot identifier without a known prefix raises instead of
    being rejected: a move request of a valid actor in which either
    identifier contains none of the four prefixes ends in a TypeError
    with the state untouched and the view not resynchronized, and so does
    a drop. *)
Theorem unknown_prefix_raises (w : World) (selectedSlot endSlot : string)
    (hash : option string) :
  Player.valid (player w) = true ->
  is_Some (Player.data (player w)) ->
  selectedSlot <> endSlot ->
  (findData selectedSlot = None \/ findData endSlot = None) ->
  processItemMovement selectedSlot endSlot hash w = (TypeError, w)
  /\ (findData selectedSlot = None ->
      handleDropGround selectedSlot w = (TypeError, w))
  /\ forall slot,
       findData slot = None
       <-> (includes slot "i-" = false /\ includes slot "t-" = false
            /\ includes slot "e-" = false /\ includes slot "g-" = false).
Proof.
  intros Hvalid Hdata Hneq Hnone.
  apply String.eqb_neq in Hneq.
  assert (Hd : bool_decide (is_Some (Player.data (player w))) = true)
    by now apply bool_decide_eq_true_2.
  split; [|split].
  - unfold processItemMovement. unfold_M. rewrite Hvalid, Hd, Hneq. simpl.
    destruct Hnone as [-> | Hend]; [reflexivity|].
    rewrite Hend. destruct (findData selectedSlot); reflexivity.
  - intros Hsel. unfold handleDropGround. unfold_M. now rewrite Hsel.
  - intros slot. unfold findData. simpl.
    change SLOT_TYPE.INVENTORY with "i-". change SLOT_TYPE.TOOLBAR with "t-".
    change SLOT_TYPE.EQUIPMENT with "e-". change SLOT_TYPE.GROUND with "g-".
    destruct (includes slot "i-"), (includes slot "t-"),
      (includes slot "e-"), (includes slot "g-"); simpl;
      split; intros H; try discriminate H; try tauto;
      destruct H as (? & ? & ? & ?); discriminate.
Qed.

End GroundExtras.

Section EffectExtras.

Context {PF : PlayerFuncs}.

Lemma pendingSave_app (b : bool) (es1 es2 : list Effect) :
  pendingSave b (es1 ++ es2) = pendingSave (pendingSave b es1) es2.
Proof.
  revert b; induction es1 as [|e es1 IH]; intros b; [reflexivity|].
  destruct e; simpl; apply IH.
Qed.

(** X13. No save is left without a resynchronization.  In what a move,
    pickup, use or split request adds to the calls, every [save.field]
    is followed by a [sync.inventory]; for the swap path this is so when
    it is so for [handleSwapOrStack]. *)
Theorem saves_are_followed_by_sync (w : World) :
  (forall p a b, pendingSave false (snd (handleSwapOrStack p a b)) = false) ->
  (forall selectedSlot endSlot hash,
      exists es,
        effects (snd (processItemMovement selectedSlot endSlot hash w)) = effects w ++ es
        /\ pendingSave false es = false)
  /\ (forall hash,
        exists es,
          effects (snd (handleProcessPickup hash w)) = effects w ++ es
          /\ pendingSave false es = false)
  /\ (forall selectedSlot,
        exists es,
          effects (snd (processUse selectedSlot w)) = effects w ++ es
          /\ pendingSave false es = false)
  /\ (forall selectedSlot amount,
        exists es,
          effects (snd (processSplit selectedSlot amount w)) = effects w ++ es
          /\ pendingSave false es = false).
Proof.
  intros Hswap.
  assert (Hswap' : forall p a b p' es,
             handleSwapOrStack p a b = (p', es) -> pendingSave false es = false).
  { intros p a b p' es E. specialize (Hswap p a b). now rewrite E in Hswap. }
  split; [|split; [|split]].
  - intros selectedSlot endSlot hash.
    destruct (processItemMovement selectedSlot endSlot hash w) as [c w'] eqn:H.
    unfold processItemMovement, handleDropGround, handlePickupGround in H.
    unfold_M.
    repeat branch H; injection H as <- <-; cbn [fst snd]; norm_all.
    all: try (exists []; rewrite app_nil_r; split; reflexivity).
    all: repeat rewrite <- app_assoc.
    all: eexists; split; [reflexivity|].
    all: try reflexivity.
    all: simpl; eauto.
  - intros hash.
    destruct (handleProcessPickup hash w) as [c w'] eqn:H.
    unfold handleProcessPickup, handlePickupGround in H. unfold_M.
    repeat branch H; injection H as <- <-; cbn [fst snd]; norm_all.
    all: try (exists []; rewrite app_nil_r; split; reflexivity).
    all: repeat rewrite <- app_assoc.
    all: eexists; split; reflexivity.
  - intros selectedSlot.
    destruct (processUse selectedSlot w) as [c w'] eqn:H.
    unfold processUse in H. unfold_M.
    repeat branch H; injection H as <- <-; cbn [fst snd]; norm_all.
    all: try (exists []; rewrite app_nil_r; split; reflexivity).
    all: repeat rewrite <- app_assoc.
    all: eexists; split; reflexivity.
  - intros selectedSlot amount.
    destruct (processSplit selectedSlot amount w) as [c w'] eqn:H.
    unfold processSplit in H. unfold_M.
    repeat branch H; injection H as <- <-; cbn [fst snd]; norm_all.
    all: try (exists []; rewrite app_nil_r; split; reflexivity).
    all: repeat rewrite <- app_assoc.
    all: eexists; split; reflexivity.
Qed.

End EffectExtras.

Section WorldFacts.

Import WorldSystem.

Lemma generateGridLoop_length fuel division i groups :
  length (generateGridLoop fuel division i groups) = (length groups + fuel)%nat.
Proof.
  revert i groups. induction fuel as [|fuel IH]; intros i groups; simpl.
  - lia.
  - rewrite IH, length_app. simpl. lia.
Qed.

Lemma generateGridLoop_lookup fuel division i groups k band :
  generateGridLoop fuel division i groups !! k = Some band ->
  groups !! k = Some band
  \/ exists j, k = (length groups + j)%nat /\ (j < fuel)%nat
       /\ band = Band.mk
                  (maxY - 2000 - ((maxY + Qabs minY) / inject_Z division)
                                 * inject_Z (i + Z.of_nat j))%Q
                  (maxY - ((maxY + Qabs minY) / inject_Z division)
                          * inject_Z (i + Z.of_nat j))%Q.
Proof.
  revert i groups. induction fuel as [|fuel IH]; intros i groups H; simpl in H.
  - now left.
  - apply IH in H as [H | (j & -> & Hj & ->)].
    + apply lookup_app_Some in H as [H | [Hlen H]]; [now left|].
      right. exists 0%nat. apply list_lookup_singleton_Some in H as [Hk <-].
      split; [lia|]. split; [lia|]. now rewrite Z.add_0_r.
    + right. exists (S j). rewrite length_app. simpl.
      split; [lia|]. split; [lia|].
      now replace (i + 1 + Z.of_nat j) with (i + Z.of_nat (S j)) by lia.
Qed.

Lemma generateGridLoop_nth fuel division i groups j :
  (j < fuel)%nat ->
  generateGridLoop fuel division i groups !! (length groups + j)%nat
  = Some (Band.mk
            (maxY - 2000 - ((maxY + Qabs minY) / inject_Z division)
                           * inject_Z (i + Z.of_nat j))%Q
            (maxY - ((maxY + Qabs minY) / inject_Z division)
                    * inject_Z (i + Z.of_nat j))%Q).
Proof.
  intros Hj.
  destruct (generateGridLoop fuel division i groups !! (length groups + j)%nat)
    as [band|] eqn:E.
  - apply generateGridLoop_lookup in E as [E | (j' & Hk & _ & ->)].
    + apply lookup_lt_Some in E. lia.
    + now replace j' with j by lia.
  - apply lookup_ge_None in E. rewrite generateGridLoop_length in E. lia.
Qed.

(** X14. The grid [generateGrid] builds for a division [d] that divides
    12000: it has [d] bands; band [i] has its upper edge at
    8000 - (12000 / d) * i and is 2000 high.  So, for at least two bands,
    every band ends where the next one begins exactly when the division
    is 6, the value the module uses. *)
Theorem grid_bands_meet_only_for_six
    (division : Z) (exact : Z.divide division 12000) (s : State) :
  let groups := minMaxGroups (generateGrid division exact s) in
  length groups = Z.to_nat division
  /\ (forall i band,
        groups !! i = Some band ->
        (Band.maxY band == 8000 - (12000 / inject_Z division) * inject_Z (Z.of_nat i)
         /\ Band.maxY band - Band.minY band == 2000)%Q)
  /\ (2 <= division ->
      (forall i upper lower,
          groups !! i = Some upper -> groups !! S i = Some lower ->
          (Band.minY upper == Band.maxY lower)%Q)
      <-> division = 6).
Proof.
  cbv zeta. unfold generateGrid. simpl.
  assert (Htotal : (maxY + Qabs minY == 12000)%Q) by reflexivity.
  split; [|split].
  - now rewrite generateGridLoop_length.
  - intros i band H.
    apply generateGridLoop_lookup in H as [H | (j & -> & Hj & ->)];
      [discriminate H|].
    simpl. rewrite Htotal. unfold maxY. split; [reflexivity|ring].
  - intros Hdiv.
    assert (Hpos : (0 < inject_Z division)%Q).
    { change 0%Q with (inject_Z 0). rewrite <- Zlt_Qlt. lia. }
    split.
    + intros H.
      specialize (H 0%nat _ _
        (generateGridLoop_nth (Z.to_nat division) division 0 [] 0 ltac:(lia))
        (generateGridLoop_nth (Z.to_nat division) division 0 [] 1 ltac:(lia))).
      simpl in H. rewrite Htotal in H. unfold maxY in H.
      assert (Hstep : (12000 / inject_Z division == 2000)%Q).
      { change (inject_Z (0 + Z.of_nat 0)) with 0%Q in H.
        change (inject_Z (0 + Z.of_nat 1)) with 1%Q in H. lra. }
      assert (Hd : (inject_Z division == 6)%Q).
      { assert (Hm : (12000 / inject_Z division * inject_Z division == 12000)%Q).
        { field. lra. }
        rewrite Hstep in Hm. lra. }
      unfold Qeq in Hd. simpl in Hd. lia.
    + intros -> i upper lower Hu Hl.
      apply generateGridLoop_lookup in Hu as [Hu | (j & -> & Hj & ->)];
        [discriminate Hu|].
      apply generateGridLoop_lookup in Hl as [Hl | (j' & Hk & Hj' & ->)];
        [discriminate Hl|].
      simpl in Hk. subst j'. simpl Band.minY. simpl Band.maxY.
      rewrite Htotal. unfold maxY.
      replace (0 + Z.of_nat (S j)) with (Z.of_nat j + 1) by lia.
      rewrite Z.add_0_l, inject_Z_plus.
      change (inject_Z 6) with 6%Q. change (inject_Z 1) with 1%Q. field.
Qed.

End WorldFacts.

Section ClockFacts.

Import WorldSystem.

Variable cfg : Config.

Lemma updateWorldTime_keeps now s :
  minMaxGroups (updateWorldTime cfg now s) = minMaxGroups s
  /\ weatherOverride (updateWorldTime cfg now s) = weatherOverride s
  /\ weatherOverrideName (updateWorldTime cfg now s) = weatherOverrideName s
  /\ timeOverride (updateWorldTime cfg now s) = timeOverride s
  /\ timeOverrideHour (updateWorldTime cfg now s) = timeOverrideHour s.
Proof.
  unfold updateWorldTime.
  destruct (USE_SERVER_TIME cfg); simpl.
  - destruct (negb _ && negb _); simpl; auto.
  - destruct (60 <=? _); simpl; destruct (24 <=? _); simpl; auto.
Qed.

Lemma ticks_keep nows s :
  minMaxGroups (ticks cfg nows s) = minMaxGroups s
  /\ weatherOverride (ticks cfg nows s) = weatherOverride s
  /\ weatherOverrideName (ticks cfg nows s) = weatherOverrideName s
  /\ timeOverride (ticks cfg nows s) = timeOverride s
  /\ timeOverrideHour (ticks cfg nows s) = timeOverrideHour s.
Proof.
  revert s. induction nows as [|now nows IH]; intros s; simpl; [auto|].
  destruct (IH (updateWorldTime cfg now s)) as (-> & -> & -> & -> & ->).
  apply updateWorldTime_keeps.
Qed.

Local Ltac between a k :=
  let Hlo := fresh "Hlo" in
  let Hhi := fresh "Hhi" in
  assert (Hlo : (inject_Z a < inject_Z k)%Q)
    by (change (inject_Z a) with (a # 1); lra);
  assert (Hhi : (inject_Z k < inject_Z (a + 1))%Q)
    by (let b := eval cbv in (a + 1) in change (inject_Z (a + 1)) with (b # 1); lra);
  rewrite <- Zlt_Qlt in Hlo, Hhi; lia.

(** X15. The band of an actor on the grid the module builds when it is
    loaded, after any number of clock ticks: the answer is always one of
    0..5; a valid actor whose height lies strictly inside band [k]
    (between 8000 - 2000(k+1) and 8000 - 2000k) is in band [k]; and the
    answer is band 0 both for an actor in band 0 and for one that is in
    no band: a missing or invalid actor, a height outside -4000..8000, or
    a height exactly on the line between two bands. *)
Theorem getGridSpace_on_loaded_grid
    (rotation : list (option string)) (now : Date.t) (nows : list Date.t)
    (player : option Player.t) :
  let s := ticks cfg nows (load cfg rotation now) in
  0 <= getGridSpace player s <= 5
  /\ (forall p k,
        player = Some p -> Player.valid p = true -> 0 <= k <= 5 ->
        (2000 * inject_Z k < 8000 - Vector3.y (Player.pos p))%Q ->
        (8000 - Vector3.y (Player.pos p) < 2000 * inject_Z (k + 1))%Q ->
        getGridSpace player s = k)
  /\ (forall p k,
        player = Some p ->
        (8000 - Vector3.y (Player.pos p) == 2000 * inject_Z k)%Q ->
        getGridSpace player s = 0)
  /\ (forall p,
        player = Some p ->
        (Vector3.y (Player.pos p) <= -(4000)
         \/ 8000 <= Vector3.y (Player.pos p))%Q ->
        getGridSpace player s = 0)
  /\ (match player with Some p => Player.valid p = false | None => True end ->
      getGridSpace player s = 0).
Proof.
  cbv zeta. unfold getGridSpace.
  destruct (ticks_keep nows (load cfg rotation now)) as (-> & _).
  unfold load. destruct (updateWorldTime_keeps now
    (generateGrid worldDivision (ex_intro _ 2000 eq_refl)
       (mkState false None false None [] (BOOTUP_HOUR cfg) (BOOTUP_MINUTE cfg) rotation)))
    as (-> & _).
  unfold generateGrid, worldDivision. cbn [minMaxGroups set_minMaxGroups].
  set (grid := generateGridLoop (Z.to_nat 6) 6 0 []).
  vm_compute in grid. subst grid.
  unfold inBand.
  destruct player as [p|];
    [|simpl; repeat split; try lia; intros; try discriminate; reflexivity].
  destruct (Player.valid p) eqn:Hvalid;
    [|simpl; repeat split; try lia; intros; try congruence; reflexivity].
  cbn [andb findIndex Band.minY Band.maxY].
  repeat (match goal with
          | |- context [Qle_bool ?a ?b] =>
              let E := fresh "E" in
              destruct (Qle_bool a b) eqn:E;
              [apply Qle_bool_iff in E
              |assert (~ (a <= b)%Q) by (rewrite <- Qle_bool_iff; congruence); clear E];
              cbn [negb andb]
          end; try (exfalso; lra)).
  all: simpl.
  all: repeat split; try lia.
  all: try (intros p0 k [= <-] _ Hk Hlo Hhi;
            assert (Hcase : k = 0 \/ k = 1 \/ k = 2 \/ k = 3 \/ k = 4 \/ k = 5) by lia;
            destruct Hcase as [-> | [-> | [-> | [-> | [-> | ->]]]]];
            try reflexivity; exfalso;
            match type of Hhi with
            | context [inject_Z ?e] =>
                let v := eval vm_compute in e in change (inject_Z e) with (v # 1) in Hhi
            end;
            unfold inject_Z in Hlo; lra).
  all: try (intros p0 [= <-] [Hout | Hout]; try reflexivity; exfalso; lra).
  all: try (intros _; reflexivity).
  all: try discriminate.
  all: intros p0 k [= <-] Hline; try reflexivity; exfalso.
  all: first [between 1 k | between 2 k | between 3 k | between 4 k | between 5 k].
Qed.

(** X16. The clock of the game (server time not used, a non-negative
    number of minutes per tick): a tick keeps the hour in 0..23 and the
    minute in 0..59.  While the minute stays below 60 only the minute
    advances; when it reaches 60 it restarts at 0, whatever the excess
    was, the hour advances by one modulo 24 and the weather array is
    rotated once. *)
Theorem game_clock_stays_in_range (now : Date.t) (s : State) :
  USE_SERVER_TIME cfg = false ->
  0 <= MINUTES_PER_MINUTE cfg ->
  0 <= hour s < 24 ->
  0 <= minute s < 60 ->
  let s' := updateWorldTime cfg now s in
  (0 <= hour s' < 24 /\ 0 <= minute s' < 60)
  /\ (minute s + MINUTES_PER_MINUTE cfg < 60 ->
      minute s' = minute s + MINUTES_PER_MINUTE cfg
      /\ hour s' = hour s
      /\ WEATHER_ROTATION s' = WEATHER_ROTATION s)
  /\ (60 <= minute s + MINUTES_PER_MINUTE cfg ->
      minute s' = 0
      /\ hour s' = (hour s + 1) mod 24
      /\ WEATHER_ROTATION s' = popUnshift (WEATHER_ROTATION s)).
Proof.
  intros Hgame Hstep Hhour Hminute. cbv zeta.
  unfold updateWorldTime. rewrite Hgame. cbn [minute set_minute].
  destruct (Z.leb_spec 60 (minute s + MINUTES_PER_MINUTE cfg)) as [Hover|Hunder];
    cbn [hour minute set_hour set_minute set_WEATHER_ROTATION WEATHER_ROTATION].
  - destruct (Z.leb_spec 24 (hour s + 1)) as [Hday|Hday];
      cbn [hour minute set_hour set_minute set_WEATHER_ROTATION WEATHER_ROTATION].
    + assert (hour s = 23) as -> by lia.
      repeat split; try lia; intros; try lia; reflexivity.
    + rewrite Z.mod_small by lia.
      repeat split; try lia; intros; try lia; reflexivity.
  - destruct (Z.leb_spec 24 (hour s)) as [Hday|Hday]; [lia|].
    cbn [hour minute set_hour set_minute set_WEATHER_ROTATION WEATHER_ROTATION].
    repeat split; try lia; intros; try lia; reflexivity.
Qed.

Lemma popUnshift_snoc (l : list (option string)) (x : option string) :
  popUnshift (l ++ [x]) = x :: l.
Proof.
  unfold popUnshift. rewrite last_snoc, removelast_last. reflexivity.
Qed.

Lemma popUnshift_iter (a b : list (option string)) :
  Nat.iter (length b) popUnshift (a ++ b) = b ++ a.
Proof.
  revert a. induction b as [|x b IH] using rev_ind; intros a.
  - simpl. now rewrite app_nil_r.
  - rewrite length_app, Nat.add_comm. cbn [length Nat.add].
    rewrite Nat.iter_succ_r, app_assoc, popUnshift_snoc.
    change (x :: a ++ b) with ((x :: a) ++ b).
    rewrite IH, <- app_assoc. reflexivity.
Qed.

(** X17. A rotation of a non-empty weather array moves the weather one
    band down the map: the array keeps its length, band [i + 1] reads
    what band [i] read before, band 0 reads what the last band read, and
    as many rotations as the array has entries restore the array.  The
    game clock rotates on exactly the ticks on which the minute reaches
    60; the server clock rotates on exactly the ticks at minute 0 or 30. *)
Theorem weather_moves_one_band_down (now : Date.t) (s : State) :
  let rotation := WEATHER_ROTATION s in
  let s' := set_WEATHER_ROTATION (popUnshift rotation) s in
  (WEATHER_ROTATION (updateWorldTime cfg now s)
   = if (if USE_SERVER_TIME cfg
         then (Date.getMinutes now =? 30) || (Date.getMinutes now =? 0)
         else 60 <=? minute s + MINUTES_PER_MINUTE cfg)
     then popUnshift rotation else rotation)
  /\ (rotation <> [] -> weatherOverride s = false ->
      length (popUnshift rotation) = length rotation
      /\ (forall i, getWeatherByGrid (S i) s'
                    = if bool_decide (S i < length rotation)%nat
                      then getWeatherByGrid i s else None)
      /\ getWeatherByGrid 0 s' = getWeatherByGrid (length rotation - 1) s
      /\ Nat.iter (length rotation) popUnshift rotation = rotation).
Proof.
  cbv zeta. split.
  - unfold updateWorldTime. destruct (USE_SERVER_TIME cfg).
    + cbn [minute hour set_minute set_hour WEATHER_ROTATION].
      destruct (Date.getMinutes now =? 30), (Date.getMinutes now =? 0); reflexivity.
    + cbn [minute set_minute].
      destruct (60 <=? minute s + MINUTES_PER_MINUTE cfg);
        cbn [hour set_hour set_minute set_WEATHER_ROTATION WEATHER_ROTATION];
        match goal with |- context [24 <=? ?h] => destruct (24 <=? h) end;
        reflexivity.
  - intros Hne Hoff. unfold getWeatherByGrid.
    cbn [weatherOverride set_WEATHER_ROTATION WEATHER_ROTATION]. rewrite Hoff.
    destruct (WEATHER_ROTATION s) as [|x0 l0 _] using rev_ind; [congruence|].
    rewrite popUnshift_snoc. split; [|split; [|split]].
    + rewrite length_app. simpl. lia.
    + intros i. change ((x0 :: l0) !! S i) with (l0 !! i).
      rewrite length_app. cbn [length].
      case_bool_decide as Hi.
      * rewrite (lookup_app_l l0 [x0]) by lia. reflexivity.
      * rewrite (lookup_ge_None_2 l0 i) by lia. reflexivity.
    + rewrite length_app. cbn [length].
      replace (length l0 + 1 - 1)%nat with (length l0) by lia.
      rewrite (list_lookup_middle l0 [] x0 (length l0) eq_refl). reflexivity.
    + rewrite <- (app_nil_l (l0 ++ [x0])) at 2.
      rewrite popUnshift_iter. now rewrite app_nil_r.
Qed.

(** X18. An override is read back until it is switched off, whatever
    the clock does in between: after the weather override is switched on
    every band reads the given name (the default name when the given one
    is empty), and after the time override is switched on with a number
    the hour read is that number, after any number of ticks.  Switching
    an override off makes the readers follow the weather array and the
    clock again. *)
Theorem override_is_read_back
    (EXTRA_SUNNY : string) (parseInt : string -> number)
    (nows : list Date.t) (s : State) :
  (forall name gridIndex,
      getWeatherByGrid gridIndex
        (ticks cfg nows (setOverrideWeather EXTRA_SUNNY true name s))
      = Some (if truthy name then name else EXTRA_SUNNY))
  /\ (forall h,
        getWorldHour (ticks cfg nows (setOverrideTime parseInt true (inl h) s))
        = Some h)
  /\ (forall name gridIndex,
        getWeatherByGrid gridIndex (setOverrideWeather EXTRA_SUNNY false name s)
        = mjoin (WEATHER_ROTATION s !! gridIndex))
  /\ (forall h,
        getWorldHour (setOverrideTime parseInt false h s) = Some (Num (hour s))).
Proof.
  split; [|split; [|split]].
  - intros name gridIndex. unfold getWeatherByGrid.
    destruct (ticks_keep nows (setOverrideWeather EXTRA_SUNNY true name s))
      as (_ & -> & -> & _).
    simpl. destruct (truthy name); reflexivity.
  - intros h. unfold getWorldHour.
    destruct (ticks_keep nows (setOverrideTime parseInt true (inl h) s))
      as (_ & _ & _ & -> & ->).
    reflexivity.
  - reflexivity.
  - reflexivity.
Qed.

End ClockFacts.

(** ** The statements above on concrete states *)

Section ReferenceSwap.

Variable capacity : nat.

Lemma reference_swap_saves_then_syncs (p : Player.t) (a b : string) :
  pendingSave false (snd (handleSwapOrStack (PlayerFuncs := reference capacity) p a b))
  = false.
Proof.
  simpl. unfold Reference.handleSwapOrStack.
  repeat match goal with
         | |- context [match ?x with _ => _ end] => destruct x
         end; reflexivity.
Qed.

End ReferenceSwap.

(** Registering a rule that denies makes the verification fail. *)
Lemma addRule_only_restricts_witness :
  let w := world0 bread_and_knife [] in
  fst (verifyRules FROM_INVENTORY_TO_TOOLBAR (Some bread) (Num 0) (Num 5)
         (register FROM_INVENTORY_TO_TOOLBAR deny w))
  = Normal false.
Proof.
  intros w.
  assert (H : ITEM_RULES w !! FROM_INVENTORY_TO_TOOLBAR = Some []) by reflexivity.
  exact (proj1 (proj2 (addRule_only_restricts w FROM_INVENTORY_TO_TOOLBAR deny []
                         (Some bread) (Num 0) (Num 5) H))).
Defined.

(** Personal Storage and Toolbar: the pair and its mirror image. *)
Lemma getInventoryRule_mirrors_witness :
  getInventoryRule toolbarRow inventoryRow
  = Some (mkRulePair FROM_TOOLBAR_TO_INVENTORY FROM_INVENTORY_TO_TOOLBAR).
Proof.
  assert (Ha : In inventoryRow (DataHelpers (PF := ref))) by (left; reflexivity).
  assert (Hb : In toolbarRow (DataHelpers (PF := ref))) by (right; left; reflexivity).
  exact (proj1 (proj2 (getInventoryRule_mirrors (PF := ref) inventoryRow toolbarRow Ha Hb)
                  (mkRulePair FROM_INVENTORY_TO_TOOLBAR FROM_TOOLBAR_TO_INVENTORY)
                  eq_refl)).
Defined.

(** Moving the bread inside Personal Storage, with a rule registered for
    every direction between Personal Storage and the Toolbar. *)
Lemma move_within_one_container_skips_rules_witness :
  calls (snd (processItemMovement (PF := ref) "i-0" "i-5" None one_way_rules)) = [].
Proof.
  exact (move_within_one_container_skips_rules (PF := ref) one_way_rules
           "i-0" "i-5" None inventoryRow inventoryRow eq_refl eq_refl eq_refl).
Defined.


(** The crate is the only record on the ground: a pickup by its token
    either leaves it there or takes it. *)
Lemma pickup_takes_the_dropped_record_witness :
  let w := crate_at (Vector3.mk 3 4 0) in
  let r := handlePickupGround (PF := ref) inventoryRow (Num 0) (Some "c1") w in
  (GROUND_ITEMS (snd r) = [DroppedItem.mk 0 crate (Vector3.mk 3 4 0) 0]
   /\ player (snd r) = player w)
  \/ (GROUND_ITEMS (snd r) = []
      /\ player (snd r)
         = snd (inventoryAdd (PlayerFuncs := ref) (player w) crate (Num 0))).
Proof.
  intros w r.
  exact (pickup_takes_the_dropped_record (PF := ref) w []
           (DroppedItem.mk 0 crate (Vector3.mk 3 4 0) 0) "c1" inventoryRow (Num 0)
           eq_refl eq_refl eq_refl).
Defined.

(** The helmet next to the actor fits the actor and goes into equipment
    slot 0. *)
Lemma pickup_commit_is_not_undone_witness :
  let w := helmet_on_ground in
  let r := handlePickupGround (PF := ref) equipmentRow (Num 0) (Some "h1") w in
  fst r = Normal tt
  /\ GROUND_ITEMS (snd r) = []
  /\ effects (snd r)
     = [save_field INVENTORY_TYPE.EQUIPMENT (Some [Some helmet]);
        sync_inventory (actor [] [Some helmet] []);
        emit_sound2D "item_shuffle_1";
        emit_animation "random@mugging4" "pickup_low" 33 1200;
        ServerObjectController_remove "h1";
        ServerItemController_remove "h1"].
Proof.
  intros w r.
  pose proof (pickup_commit_is_not_undone (PF := ref) w w equipmentRow (Num 0) "h1"
                (isEquipmentSlotFree (PlayerFuncs := ref))
                (DroppedItem.mk 0 helmet (Vector3.mk 1 0 0) 0)
                (equipmentAdd (PlayerFuncs := ref)) true
                (actor [] [Some helmet] []) (PlayerData.mk [] [Some helmet] [] 0)
                eq_refl eq_refl eq_refl eq_refl eq_refl eq_refl eq_refl eq_refl
                (fun _ _ => ex_intro _ (PlayerData.mk [] [] [] 0) (conj eq_refl eq_refl))
                eq_refl eq_refl (fun _ => eq_refl)) as H.
  subst r. rewrite H. repeat split.
Defined.

(** A move from a slot identifier without a known prefix. *)
Lemma unknown_prefix_raises_witness :
  let w := world0 bread_and_knife [] in
  processItemMovement (PF := ref) "x-0" "i-1" None w = (TypeError, w).
Proof.
  intros w.
  assert (Hd : is_Some (Player.data (player w))) by (eexists; reflexivity).
  assert (Hne : "x-0" <> "i-1") by discriminate.
  exact (proj1 (unknown_prefix_raises (PF := ref) w "x-0" "i-1" None
                  eq_refl Hd Hne (or_introl eq_refl))).
Defined.

(** On the reference collaborators the split of ten by four saves and
    then synchronizes. *)
Lemma saves_are_followed_by_sync_witness :
  let w := world0 bread_and_knife [] in
  exists es,
    effects (snd (processSplit (PF := ref) "i-0" (Num 4) w)) = effects w ++ es
    /\ pendingSave false es = false.
Proof.
  intros w.
  exact (proj2 (proj2 (proj2 (saves_are_followed_by_sync (PF := ref) w
                                (reference_swap_saves_then_syncs 28))))
           "i-0" (Num 4)).
Defined.

(** Five minutes before midnight, one tick of five minutes. *)
Lemma game_clock_stays_in_range_witness :
  let s' := WorldSystem.updateWorldTime WorldSystem.gameClock
              (WorldSystem.Date.mk 0 0) WorldSystem.beforeMidnight in
  WorldSystem.minute s' = 0
  /\ WorldSystem.hour s' = 0
  /\ WorldSystem.WEATHER_ROTATION s' = [Some "FOGGY"; Some "RAIN"; Some "CLEAR"].
Proof.
  intros s'.
  assert (Hstep : 0 <= WorldSystem.MINUTES_PER_MINUTE WorldSystem.gameClock)
    by (simpl; lia).
  assert (Hhour : 0 <= WorldSystem.hour WorldSystem.beforeMidnight < 24)
    by (simpl; lia).
  assert (Hminute : 0 <= WorldSystem.minute WorldSystem.beforeMidnight < 60)
    by (simpl; lia).
  assert (Hover : 60 <= WorldSystem.minute WorldSystem.beforeMidnight
                        + WorldSystem.MINUTES_PER_MINUTE WorldSystem.gameClock)
    by (simpl; lia).
  exact (proj2 (proj2 (game_clock_stays_in_range WorldSystem.gameClock
                         (WorldSystem.Date.mk 0 0) WorldSystem.beforeMidnight
                         eq_refl Hstep Hhour Hminute))
           Hover).
Defined.

(** Four bands of 2000 leave a gap of 1000 between them: the first ends
    at 6000 and the second begins at 5000. *)
Lemma grid_bands_meet_only_for_six_witness :
  let s := WorldSystem.generateGrid 4 (ex_intro _ 3000 eq_refl)
             WorldSystem.beforeMidnight in
  length (WorldSystem.minMaxGroups s) = 4%nat
  /\ ~ (forall i upper lower,
          WorldSystem.minMaxGroups s !! i = Some upper ->
          WorldSystem.minMaxGroups s !! S i = Some lower ->
          (WorldSystem.Band.minY upper == WorldSystem.Band.maxY lower)%Q).
Proof.
  intros s.
  pose proof (grid_bands_meet_only_for_six 4 (ex_intro _ 3000 eq_refl)
                WorldSystem.beforeMidnight) as (Hlen & _ & Hmeet).
  split; [exact Hlen|].
  intros H. apply (proj1 (Hmeet ltac:(lia))) in H. discriminate H.
Defined.
